(** * Task_list: the tool-mediated task store of [mcp_demo_simple.py] and
    [mcp_task_manager.py].

    Python strings are lists of code points ([pystr]); the values that
    [json.loads] returns and that the store manipulates are [json] values;
    Python dicts are association lists in insertion order.  [dumps] follows
    [json.dumps(obj, indent=2)] (ensure_ascii on) and [loads] follows the
    scanner of CPython's [_json] module. *)

From Stdlib Require Import ZArith List String Ascii Bool Lia.
From Stdlib Require Import DecimalFacts DecimalPos DecimalZ.
Import ListNotations.
Set Warnings "-register-all".
Open Scope Z_scope.

(** ** Python values *)
Module Py.

(** A Python [str]: its sequence of code points. *)
Definition pystr := list Z.

(** String literal of the source, written as ASCII. *)
Definition ps (s : string) : pystr :=
  map (fun a => Z.of_nat (nat_of_ascii a)) (list_ascii_of_string s).

Fixpoint pystr_eqb (a b : pystr) : bool :=
  match a, b with
  | [], [] => true
  | x :: a', y :: b' => (x =? y) && pystr_eqb a' b'
  | _, _ => false
  end.

(** A Python dict with [str] keys, in insertion order. *)
Definition dict (A : Type) := list (pystr * A).

Fixpoint dict_get {A} (d : dict A) (k : pystr) : option A :=
  match d with
  | [] => None
  | (k', v) :: d' => if pystr_eqb k k' then Some v else dict_get d' k
  end.

(** [d[k] = v]: an existing key keeps its position, a new key goes last. *)
Fixpoint dict_set {A} (d : dict A) (k : pystr) (v : A) : dict A :=
  match d with
  | [] => [(k, v)]
  | (k', v') :: d' =>
      if pystr_eqb k k' then (k', v) :: d' else (k', v') :: dict_set d' k v
  end.

(** Non-finite floats accepted by [json.loads] ([NaN], [Infinity],
    [-Infinity]). *)
Inductive nonfinite := NaN | PosInf | NegInf.

(** The values [json.loads] produces.  A finite float is kept as the exact
    decimal [m * 10^e] of its lexeme (the binary rounding of Python floats is
    not modelled). *)
Inductive json :=
| JNull
| JBool (b : bool)
| JInt (z : Z)
| JFloat (m e : Z)
| JSpecial (f : nonfinite)
| JStr (s : pystr)
| JArr (l : list json)
| JObj (kvs : dict json).

(** Python exceptions that the modelled code can raise. *)
Inductive exn := KeyError | TypeError | AttributeError | JSONDecodeError.

(** Truthiness ([if not tasks], ["x" if task["completed"] else "y"]). *)
Definition truthy (v : json) : bool :=
  match v with
  | JNull => false
  | JBool b => b
  | JInt z => negb (z =? 0)
  | JFloat m _ => negb (m =? 0)
  | JSpecial _ => true
  | JStr s => negb (Nat.eqb (List.length s) 0)
  | JArr l => negb (Nat.eqb (List.length l) 0)
  | JObj kvs => negb (Nat.eqb (List.length kvs) 0)
  end.

(** [v == n] for a Python [int] [n] ([True == 1] holds in Python). *)
Definition eq_int (v : json) (n : Z) : bool :=
  match v with
  | JInt z => z =? n
  | JBool b => Z.b2z b =? n
  | JFloat m e =>
      if 0 <=? e then m * 10 ^ e =? n
      else (m mod 10 ^ (- e) =? 0) && (m / 10 ^ (- e) =? n)
  | _ => false
  end.

End Py.
Import Py.

(** ** [json.dumps(obj, indent=2)] *)
Module Dumps.

Definition hexdigit (d : Z) : Z := if d <? 10 then 48 + d else 87 + d.

(** ['\\u{0:04x}'.format(n)] *)
Definition u_escape (n : Z) : pystr :=
  [92; 117;
   hexdigit (Z.land (Z.shiftr n 12) 15); hexdigit (Z.land (Z.shiftr n 8) 15);
   hexdigit (Z.land (Z.shiftr n 4) 15); hexdigit (Z.land n 15)].

(** The [replace] of [py_encode_basestring_ascii]: the characters outside
    the printable ASCII range, the backslash and the double quote are
    escaped. *)
Definition escape_char (c : Z) : pystr :=
  if c =? 92 then [92; 92]
  else if c =? 34 then [92; 34]
  else if c =? 8 then [92; 98]
  else if c =? 12 then [92; 102]
  else if c =? 10 then [92; 110]
  else if c =? 13 then [92; 114]
  else if c =? 9 then [92; 116]
  else if (32 <=? c) && (c <=? 126) then [c]
  else if c <? 65536 then u_escape c
  else
    let n := c - 65536 in
    u_escape (Z.lor 55296 (Z.land (Z.shiftr n 10) 1023))
      ++ u_escape (Z.lor 56320 (Z.land n 1023)).

Definition encode_basestring_ascii (s : pystr) : pystr :=
  34 :: flat_map escape_char s ++ [34].

(** The characters of a decimal numeral. *)
Fixpoint uint_chars (d : Decimal.uint) : pystr :=
  match d with
  | Decimal.Nil => []
  | Decimal.D0 d' => 48 :: uint_chars d'
  | Decimal.D1 d' => 49 :: uint_chars d'
  | Decimal.D2 d' => 50 :: uint_chars d'
  | Decimal.D3 d' => 51 :: uint_chars d'
  | Decimal.D4 d' => 52 :: uint_chars d'
  | Decimal.D5 d' => 53 :: uint_chars d'
  | Decimal.D6 d' => 54 :: uint_chars d'
  | Decimal.D7 d' => 55 :: uint_chars d'
  | Decimal.D8 d' => 56 :: uint_chars d'
  | Decimal.D9 d' => 57 :: uint_chars d'
  end.

(** [int.__repr__] *)
Definition int_repr (z : Z) : pystr :=
  match Z.to_int z with
  | Decimal.Pos d => uint_chars d
  | Decimal.Neg d => 45 :: uint_chars d
  end.

(** Finite floats are written as mantissa, [e], exponent (the shortest
    [float.__repr__] is not modelled); non-finite ones as Python does. *)
Definition float_repr (m e : Z) : pystr :=
  int_repr m ++ [101] ++ int_repr e.

Definition nonfinite_repr (f : nonfinite) : pystr :=
  match f with
  | NaN => ps "NaN"
  | PosInf => ps "Infinity"
  | NegInf => ps "-Infinity"
  end.

(** [_indent * level] with [_indent = '  '] *)
Definition indent (level : nat) : pystr := repeat 32 (2 * level)%nat.

(** [_iterencode] with [indent=2], [separators=(',', ': ')]. *)
Fixpoint encode (level : nat) (v : json) : pystr :=
  match v with
  | JNull => ps "null"
  | JBool true => ps "true"
  | JBool false => ps "false"
  | JInt z => int_repr z
  | JFloat m e => float_repr m e
  | JSpecial f => nonfinite_repr f
  | JStr s => encode_basestring_ascii s
  | JArr [] => ps "[]"
  | JArr (x :: xs) =>
      let nl := 10 :: indent (S level) in
      91 :: nl ++ encode (S level) x
         ++ (fix items (l : list json) : pystr :=
               match l with
               | [] => []
               | y :: ys => 44 :: nl ++ encode (S level) y ++ items ys
               end) xs
         ++ 10 :: indent level ++ [93]
  | JObj [] => ps "{}"
  | JObj ((k, x) :: kvs) =>
      let nl := 10 :: indent (S level) in
      123 :: nl ++ encode_basestring_ascii k ++ [58; 32] ++ encode (S level) x
          ++ (fix items (l : dict json) : pystr :=
                match l with
                | [] => []
                | (k', y) :: ys =>
                    44 :: nl ++ encode_basestring_ascii k' ++ [58; 32]
                       ++ encode (S level) y ++ items ys
                end) kvs
          ++ 10 :: indent level ++ [125]
  end.

(** [json.dumps(obj, indent=2)] *)
Definition dumps (v : json) : pystr := encode 0 v.

End Dumps.
Import Dumps.

(** ** [json.loads], after the scanner of CPython's [_json] module *)
Module Loads.

(** [IS_WHITESPACE]: space, tab, newline, carriage return. *)
Definition is_ws (c : Z) : bool := (c =? 32) || (c =? 9) || (c =? 10) || (c =? 13).

Fixpoint skip_ws (s : pystr) : pystr :=
  match s with
  | c :: r => if is_ws c then skip_ws r else s
  | [] => []
  end.

Definition hexval (c : Z) : option Z :=
  if (48 <=? c) && (c <=? 57) then Some (c - 48)
  else if (97 <=? c) && (c <=? 102) then Some (c - 87)
  else if (65 <=? c) && (c <=? 70) then Some (c - 55)
  else None.

(** Four hex digits: [c <<= 4; c |= digit] for each. *)
Definition hex4 (a b c d : Z) : option Z :=
  match hexval a, hexval b, hexval c, hexval d with
  | Some x, Some y, Some z, Some w =>
      Some (Z.lor (Z.shiftl (Z.lor (Z.shiftl (Z.lor (Z.shiftl x 4) y) 4) z) 4) w)
  | _, _, _, _ => None
  end.

Definition is_high (u : Z) : bool := (55296 <=? u) && (u <=? 56319).
Definition is_low (u : Z) : bool := (56320 <=? u) && (u <=? 57343).

(** [Py_UNICODE_JOIN_SURROGATES] *)
Definition join_surrogates (hi lo : Z) : Z :=
  Z.lor (Z.shiftl (Z.land hi 1023) 10) (Z.land lo 1023) + 65536.

Definition cons_char (c : Z) (res : option (pystr * pystr)) : option (pystr * pystr) :=
  match res with
  | Some (str, rest) => Some (c :: str, rest)
  | None => None
  end.

(** One-character escapes: quote, backslash, slash, [b], [f], [n], [r],
    [t]. *)
Definition simple_escape (e : Z) : option Z :=
  if e =? 34 then Some 34
  else if e =? 92 then Some 92
  else if e =? 47 then Some 47
  else if e =? 98 then Some 8
  else if e =? 102 then Some 12
  else if e =? 110 then Some 10
  else if e =? 114 then Some 13
  else if e =? 116 then Some 9
  else None.

(** [scanstring_unicode] in strict mode, started after the opening quote:
    the decoded string and the input after the closing quote. *)
Fixpoint scanstring (s : pystr) : option (pystr * pystr) :=
  match s with
  | [] => None
  | c :: r =>
      if c =? 34 then Some ([], r)
      else if c =? 92 then
        match r with
        | [] => None
        | e :: r1 =>
            if e =? 117 then
              match r1 with
              | h1 :: h2 :: h3 :: h4 :: r2 =>
                  match hex4 h1 h2 h3 h4 with
                  | None => None
                  | Some u =>
                      if is_high u then
                        match r2 with
                        | x :: y :: g1 :: g2 :: g3 :: g4 :: r3 =>
                            if (x =? 92) && (y =? 117) then
                              match hex4 g1 g2 g3 g4 with
                              | None => None
                              | Some u2 =>
                                  if is_low u2
                                  then cons_char (join_surrogates u u2) (scanstring r3)
                                  else cons_char u (scanstring r2)
                              end
                            else cons_char u (scanstring r2)
                        | _ => cons_char u (scanstring r2)
                        end
                      else cons_char u (scanstring r2)
                  end
              | _ => None
              end
            else
              match simple_escape e with
              | Some x => cons_char x (scanstring r1)
              | None => None
              end
        end
      else if c <? 32 then None
      else cons_char c (scanstring r)
  end.

Definition is_digit (c : Z) : bool := (48 <=? c) && (c <=? 57).

Fixpoint take_digits (s : pystr) : pystr * pystr :=
  match s with
  | c :: r =>
      if is_digit c then let (ds, rest) := take_digits r in (c :: ds, rest)
      else ([], s)
  | [] => ([], [])
  end.

(** The numeral whose characters are [ds] (all of them digits). *)
Fixpoint uint_of_chars (ds : pystr) : Decimal.uint :=
  match ds with
  | [] => Decimal.Nil
  | c :: r =>
      let d := uint_of_chars r in
      if c =? 48 then Decimal.D0 d else if c =? 49 then Decimal.D1 d
      else if c =? 50 then Decimal.D2 d else if c =? 51 then Decimal.D3 d
      else if c =? 52 then Decimal.D4 d else if c =? 53 then Decimal.D5 d
      else if c =? 54 then Decimal.D6 d else if c =? 55 then Decimal.D7 d
      else if c =? 56 then Decimal.D8 d else Decimal.D9 d
  end.

Definition value_of_digits (ds : pystr) : Z := Z.of_uint (uint_of_chars ds).

(** The integer part: ["0"] or a nonzero digit followed by digits. *)
Definition int_part (s : pystr) : option (pystr * pystr) :=
  match s with
  | c :: r =>
      if c =? 48 then Some ([48], r)
      else if is_digit c then let (ds, rest) := take_digits r in Some (c :: ds, rest)
      else None
  | [] => None
  end.

(** A fraction ['.' digit+], if present. *)
Definition frac_part (s : pystr) : pystr * pystr :=
  match s with
  | p :: d :: r =>
      if (p =? 46) && is_digit d then let (ds, rest) := take_digits r in (d :: ds, rest)
      else ([], s)
  | _ => ([], s)
  end.

(** An exponent [[eE][-+]?digit+], if present (otherwise backtrack). *)
Definition exp_part (s : pystr) : option Z * pystr :=
  match s with
  | e :: r =>
      if (e =? 101) || (e =? 69) then
        let '(sign, r1) :=
          match r with
          | x :: r' => if x =? 45 then (-1, r') else if x =? 43 then (1, r') else (1, r)
          | [] => (1, r)
          end in
        match take_digits r1 with
        | ([], _) => (None, s)
        | (ds, rest) => (Some (sign * value_of_digits ds), rest)
        end
      else (None, s)
  | [] => (None, s)
  end.

(** [_match_number_unicode] *)
Definition match_number (s : pystr) : option (json * pystr) :=
  let '(neg, s1) :=
    match s with
    | c :: r => if c =? 45 then (true, r) else (false, s)
    | [] => (false, s)
    end in
  let sign := if neg then -1 else 1 in
  match int_part s1 with
  | None => None
  | Some (ip, r1) =>
      let '(fp, r2) := frac_part r1 in
      let '(ex, r3) := exp_part r2 in
      match fp, ex with
      | [], None => Some (JInt (sign * value_of_digits ip), r3)
      | _, _ =>
          Some (JFloat (sign * value_of_digits (ip ++ fp))
                       (match ex with Some x => x | None => 0 end
                        - Z.of_nat (List.length fp)), r3)
      end
  end.

Fixpoint strip_prefix (p s : pystr) : option pystr :=
  match p with
  | [] => Some s
  | x :: p' =>
      match s with
      | y :: s' => if x =? y then strip_prefix p' s' else None
      | [] => None
      end
  end.

(** The named constants of [scan_once_unicode], then a number. *)
Definition scan_atom (s : pystr) : option (json * pystr) :=
  let consts := [(ps "null", JNull); (ps "true", JBool true); (ps "false", JBool false);
                 (ps "NaN", JSpecial NaN); (ps "Infinity", JSpecial PosInf);
                 (ps "-Infinity", JSpecial NegInf)] in
  (fix go (l : list (pystr * json)) : option (json * pystr) :=
     match l with
     | [] => match_number s
     | (kw, v) :: l' =>
         match strip_prefix kw s with
         | Some rest => Some (v, rest)
         | None => go l'
         end
     end) consts.

(** [scan_once_unicode], [_parse_array_unicode] and [_parse_object_unicode].
    [fuel] bounds the nesting of calls; every two nested calls consume at
    least one character, so [loads] gives twice the length of its input.
    The interpreter's recursion limit is not modelled. *)
Fixpoint scan_once (fuel : nat) (s : pystr) {struct fuel} : option (json * pystr) :=
  match fuel with
  | O => None
  | S f =>
      match s with
      | [] => None
      | c :: r =>
          if c =? 34 then
            match scanstring r with
            | Some (str, rest) => Some (JStr str, rest)
            | None => None
            end
          else if c =? 123 then
            match skip_ws r with
            | (x :: r') as r1 => if x =? 125 then Some (JObj [], r') else parse_object f r1 []
            | [] => None
            end
          else if c =? 91 then
            match skip_ws r with
            | (x :: r') as r1 => if x =? 93 then Some (JArr [], r') else parse_array f r1 []
            | [] => None
            end
          else scan_atom s
      end
  end
with parse_array (fuel : nat) (s : pystr) (acc : list json) {struct fuel}
  : option (json * pystr) :=
  match fuel with
  | O => None
  | S f =>
      match scan_once f s with
      | None => None
      | Some (v, r) =>
          match skip_ws r with
          | x :: r' =>
              if x =? 93 then Some (JArr (rev (v :: acc)), r')
              else if x =? 44 then parse_array f (skip_ws r') (v :: acc)
              else None
          | [] => None
          end
      end
  end
with parse_object (fuel : nat) (s : pystr) (acc : dict json) {struct fuel}
  : option (json * pystr) :=
  match fuel with
  | O => None
  | S f =>
      match s with
      | x :: r =>
          if x =? 34 then
            match scanstring r with
            | None => None
            | Some (k, r1) =>
                match skip_ws r1 with
                | y :: r2 =>
                    if y =? 58 then
                      match scan_once f (skip_ws r2) with
                      | None => None
                      | Some (v, r3) =>
                          let acc' := dict_set acc k v in
                          match skip_ws r3 with
                          | z :: r4 =>
                              if z =? 125 then Some (JObj acc', r4)
                              else if z =? 44 then parse_object f (skip_ws r4) acc'
                              else None
                          | [] => None
                          end
                      end
                    else None
                | [] => None
                end
            end
          else None
      | [] => None
      end
  end.

(** [json.loads(s)]: [None] is a raised [JSONDecodeError] (a leading BOM,
    no value, or extra data after it). *)
Definition loads (s : pystr) : option json :=
  match s with
  | c :: _ => if c =? 65279 then None else
      match scan_once (S (2 * List.length s)) (skip_ws s) with
      | Some (v, r) => match skip_ws r with [] => Some v | _ => None end
      | None => None
      end
  | [] => None
  end.

End Loads.
Import Loads.

(** ** Exceptions and state: the store's monad *)
Module Store.

Inductive res (A : Type) := Ok (a : A) | Raise (e : exn).
Arguments Ok {A} a.
Arguments Raise {A} e.

Definition rbind {A B} (r : res A) (k : A -> res B) : res B :=
  match r with Ok a => k a | Raise e => Raise e end.

Notation "x <-? r ;; k" := (rbind r (fun x => k))
  (at level 61, r at next level, right associativity).

(** The filesystem dict of [SimulatedMCPServer], and the tool calls made so
    far (an observation log: the source keeps no such list). *)
Record world := mkWorld {
  filesystem : dict pystr;
  calls : list (pystr * dict pystr)
}.

Definition empty_world : world := mkWorld [] [].

Definition M (A : Type) := world -> res A * world.

Definition ret {A} (a : A) : M A := fun w => (Ok a, w).
Definition lift {A} (r : res A) : M A := fun w => (r, w).
Definition bind {A B} (m : M A) (k : A -> M B) : M B :=
  fun w => match m w with
           | (Ok a, w') => k a w'
           | (Raise e, w') => (Raise e, w')
           end.

Notation "x <- m ;; k" := (bind m (fun x => k))
  (at level 61, m at next level, right associativity).

(** The result dicts of [call_tool]. *)
Inductive tool_result :=
| RContent (content : pystr)
| RSuccess
| RFiles (files : list pystr)
| RError (error : pystr).

(** [SimulatedMCPServer.call_tool] *)
Definition call_tool (tool_name : pystr) (arguments : dict pystr) : M tool_result :=
  fun w0 =>
  let w := mkWorld (filesystem w0) (calls w0 ++ [(tool_name, arguments)]) in
  if pystr_eqb tool_name (ps "read_file") then
    match dict_get arguments (ps "path") with
    | None => (Raise KeyError, w)
    | Some path =>
        match dict_get (filesystem w) path with
        | Some content => (Ok (RContent content), w)
        | None => (Ok (RContent (ps "[]")), w)
        end
    end
  else if pystr_eqb tool_name (ps "write_file") then
    match dict_get arguments (ps "path") with
    | None => (Raise KeyError, w)
    | Some path =>
        match dict_get arguments (ps "content") with
        | None => (Raise KeyError, w)
        | Some content =>
            (Ok RSuccess, mkWorld (dict_set (filesystem w) path content) (calls w))
        end
    end
  else if pystr_eqb tool_name (ps "list_directory") then
    (Ok (RFiles (map fst (filesystem w))), w)
  else (Ok (RError (ps "Unknown tool: " ++ tool_name)), w).

(** [result.get("content", "[]")] *)
Definition get_content (r : tool_result) : pystr :=
  match r with
  | RContent c => c
  | _ => ps "[]"
  end.

(** *** Python operations on the loaded values *)

(** [len(v)] *)
Definition py_len (v : json) : res Z :=
  match v with
  | JArr l => Ok (Z.of_nat (List.length l))
  | JObj kvs => Ok (Z.of_nat (List.length kvs))
  | JStr s => Ok (Z.of_nat (List.length s))
  | _ => Raise TypeError
  end.

(** [v.append(x)] *)
Definition py_append (v x : json) : res json :=
  match v with
  | JArr l => Ok (JArr (l ++ [x]))
  | _ => Raise AttributeError
  end.

(** [v[k]] for a [str] key. *)
Definition getitem (v : json) (k : pystr) : res json :=
  match v with
  | JObj kvs => match dict_get kvs k with Some x => Ok x | None => Raise KeyError end
  | _ => Raise TypeError
  end.

(** [v[k] = x] for a [str] key. *)
Definition setitem (v : json) (k : pystr) (x : json) : res json :=
  match v with
  | JObj kvs => Ok (JObj (dict_set kvs k x))
  | _ => Raise TypeError
  end.

(** The items of [for x in v]. *)
Definition py_iter (v : json) : res (list json) :=
  match v with
  | JArr l => Ok l
  | JObj kvs => Ok (map (fun kv => JStr (fst kv)) kvs)
  | JStr s => Ok (map (fun c => JStr [c]) s)
  | _ => Raise TypeError
  end.

(** The list [v] after its [i]-th element was mutated into [x]. *)
Fixpoint replace_nth (l : list json) (i : nat) (x : json) : list json :=
  match l, i with
  | [], _ => []
  | _ :: r, O => x :: r
  | y :: r, S i' => y :: replace_nth r i' x
  end.

Definition replace_at (v : json) (i : nat) (x : json) : res json :=
  match v with
  | JArr l => Ok (JArr (replace_nth l i x))
  | _ => Raise TypeError
  end.

End Store.
Import Store.

(** ** [SimpleTaskManager] *)
Module Simple.

Definition tasks_file : pystr := ps "tasks.json".

(** [_read_tasks] *)
Definition read_tasks : M json :=
  result <- call_tool (ps "read_file") [(ps "path", tasks_file)] ;;
  match loads (get_content result) with
  | Some v => ret v
  | None => lift (Raise JSONDecodeError)
  end.

(** [_write_tasks] *)
Definition write_tasks (tasks : json) : M unit :=
  _ <- call_tool (ps "write_file")
         [(ps "path", tasks_file); (ps "content", dumps tasks)] ;;
  ret tt.

(** What an operation prints. *)
Inductive glyph := Red | Yellow | Green | White.

Record row := mkRow {
  row_done : bool;
  row_id : json;
  row_glyph : glyph;
  row_description : json
}.

Inductive report :=
| Added (description priority : pystr)
| NoTasks
| Listed (rows : list row)
| Completed (task_id : Z)
| NotFound (task_id : Z)
| Deleted (task_id : Z).

(** The dict literal built by [add_task]. *)
Definition new_task (id : Z) (description priority : pystr) : json :=
  JObj [(ps "id", JInt id); (ps "description", JStr description);
        (ps "priority", JStr priority); (ps "completed", JBool false)].

(** [add_task(description, priority)] *)
Definition add_task (description priority : pystr) : M report :=
  tasks <- read_tasks ;;
  n <- lift (py_len tasks) ;;
  tasks' <- lift (py_append tasks (new_task (n + 1) description priority)) ;;
  _ <- write_tasks tasks' ;;
  ret (Added description priority).

(** [{"high": ..., "medium": ..., "low": ...}.get(p, default)]; a list or
    dict key is unhashable. *)
Definition priority_glyph (p : json) : res glyph :=
  match p with
  | JStr s =>
      if pystr_eqb s (ps "high") then Ok Red
      else if pystr_eqb s (ps "medium") then Ok Yellow
      else if pystr_eqb s (ps "low") then Ok Green
      else Ok White
  | JArr _ | JObj _ => Raise TypeError
  | _ => Ok White
  end.

Definition render (task : json) : res row :=
  status <-? getitem task (ps "completed") ;;
  p <-? getitem task (ps "priority") ;;
  g <-? priority_glyph p ;;
  i <-? getitem task (ps "id") ;;
  d <-? getitem task (ps "description") ;;
  Ok (mkRow (truthy status) i g d).

Fixpoint render_all (l : list json) : res (list row) :=
  match l with
  | [] => Ok []
  | t :: r => x <-? render t ;; xs <-? render_all r ;; Ok (x :: xs)
  end.

(** [list_tasks()] *)
Definition list_tasks : M report :=
  tasks <- read_tasks ;;
  if negb (truthy tasks) then ret NoTasks
  else
    elems <- lift (py_iter tasks) ;;
    rows <- lift (render_all elems) ;;
    ret (Listed rows).

(** The [for] loop of [complete_task]; [i] is the position of [task] in
    [tasks], whose element is the dict mutated in place. *)
Fixpoint complete_loop (task_id : Z) (tasks : json) (i : nat) (elems : list json)
  : M report :=
  match elems with
  | [] => ret (NotFound task_id)
  | task :: rest =>
      v <- lift (getitem task (ps "id")) ;;
      if eq_int v task_id then
        task' <- lift (setitem task (ps "completed") (JBool true)) ;;
        tasks' <- lift (replace_at tasks i task') ;;
        _ <- write_tasks tasks' ;;
        ret (Completed task_id)
      else complete_loop task_id tasks (S i) rest
  end.

(** [complete_task(task_id)] *)
Definition complete_task (task_id : Z) : M report :=
  tasks <- read_tasks ;;
  elems <- lift (py_iter tasks) ;;
  complete_loop task_id tasks O elems.

(** [[t for t in tasks if t["id"] != task_id]] *)
Fixpoint keep_other_ids (task_id : Z) (l : list json) : res (list json) :=
  match l with
  | [] => Ok []
  | t :: r =>
      v <-? getitem t (ps "id") ;;
      kept <-? keep_other_ids task_id r ;;
      Ok (if negb (eq_int v task_id) then t :: kept else kept)
  end.

(** [delete_task(task_id)] *)
Definition delete_task (task_id : Z) : M report :=
  tasks <- read_tasks ;;
  elems <- lift (py_iter tasks) ;;
  kept <- lift (keep_other_ids task_id elems) ;;
  _ <- write_tasks (JArr kept) ;;
  ret (Deleted task_id).

End Simple.

(** ** [TaskManager._read_tasks] of the networked variant *)
Module Net.

(** An item of [result.content]. *)
Inductive content_item := TextContent (text : pystr) | OtherContent.

(** [_read_tasks], given what [await self.session.call_tool("read_file",
    ...)] did: returned a result with content items, or raised.  Every
    exception of the [try] block is caught and gives [[]]. *)
Definition read_tasks (outcome : res (list content_item)) : json :=
  match outcome with
  | Raise _ => JArr []
  | Ok items =>
      let content :=
        match items with
        | [] => Ok (ps "[]")
        | TextContent t :: _ => Ok t
        | OtherContent :: _ => Raise AttributeError
        end in
      match content with
      | Raise _ => JArr []
      | Ok c => match loads c with Some v => v | None => JArr [] end
      end
  end.

End Net.

(** ** Task collections *)
Module Tasks.

(** A task record as [add_task] creates it. *)
Record task := mkTask {
  id : Z;
  description : pystr;
  priority : pystr;
  completed : bool
}.

Definition task_json (t : task) : json :=
  JObj [(ps "id", JInt (id t)); (ps "description", JStr (description t));
        (ps "priority", JStr (priority t)); (ps "completed", JBool (completed t))].

(** A Task Collection as the JSON array it is stored as. *)
Definition collection_json (C : list task) : json := JArr (map task_json C).

(** [save(C)] *)
Definition save (C : list task) : M unit := Simple.write_tasks (collection_json C).

(** A code point of a Python [str]. *)
Definition valid_cp (c : Z) : Prop := 0 <= c <= 1114111.

Definition task_valid (t : task) : Prop :=
  Forall valid_cp (description t) /\ Forall valid_cp (priority t).

(** A high surrogate code point directly followed by a low one is written
    by [dumps] as two [\uXXXX] escapes that [loads] joins into one code
    point. *)
Fixpoint join_pairs (s : pystr) : pystr :=
  match s with
  | h :: ((l :: r) as t) =>
      if is_high h && is_low l then join_surrogates h l :: join_pairs r
      else h :: join_pairs t
  | _ => s
  end.

Fixpoint has_pair (s : pystr) : bool :=
  match s with
  | h :: ((l :: _) as t) => (is_high h && is_low l) || has_pair t
  | _ => false
  end.

Definition normalize_task (t : task) : task :=
  mkTask (id t) (join_pairs (description t)) (join_pairs (priority t)) (completed t).

End Tasks.
Import Tasks.

(** ** Observations on runs of the store *)
Module Facts.

(** The character after a number ends it: no digit, [.], [e] or [E]. *)
Definition ends_number (r : pystr) : Prop :=
  exists x r', r = x :: r' /\ is_digit x = false /\ x <> 46 /\ x <> 101 /\ x <> 69.

(** The tool calls of [_read_tasks] and [_write_tasks]. *)
Definition read_call : pystr * dict pystr := (ps "read_file", [(ps "path", Simple.tasks_file)]).

Definition write_call (content : pystr) : pystr * dict pystr :=
  (ps "write_file", [(ps "path", Simple.tasks_file); (ps "content", content)]).

(** The world once [_read_tasks] has run: only the call is logged. *)
Definition after_read (w : world) : world :=
  mkWorld (filesystem w) (calls w ++ [read_call]).

(** The content stored at the tasks path, if any. *)
Definition stored (w : world) : option pystr := dict_get (filesystem w) Simple.tasks_file.

(** A task with its completion flag set. *)
Definition mark (t : task) : task :=
  mkTask (id t) (description t) (priority t) true.

(** The collection once the first task with id [n] is marked, if there is one. *)
Fixpoint mark_first (n : Z) (C : list task) : option (list task) :=
  match C with
  | [] => None
  | t :: r =>
      if id t =? n then Some (mark t :: r)
      else match mark_first n r with
           | Some r' => Some (t :: r')
           | None => None
           end
  end.

(** The filter of [delete_task]. *)
Definition keeps_id (n : Z) (t : task) : bool := negb (id t =? n).

(** No high surrogate directly followed by a low one in its strings. *)
Definition no_pairs (t : task) : Prop :=
  has_pair (description t) = false /\ has_pair (priority t) = false.

(** The operations of [SimpleTaskManager] (its demo calls them in sequence). *)
Inductive op :=
| OpAdd (description priority : pystr)
| OpList
| OpComplete (task_id : Z)
| OpDelete (task_id : Z).

Definition run_op (o : op) : M Simple.report :=
  match o with
  | OpAdd d p => Simple.add_task d p
  | OpList => Simple.list_tasks
  | OpComplete n => Simple.complete_task n
  | OpDelete n => Simple.delete_task n
  end.

(** The arguments of an operation are Python [str]s. *)
Definition op_valid (o : op) : Prop :=
  match o with
  | OpAdd d p => Forall valid_cp d /\ Forall valid_cp p
  | _ => True
  end.

(** The worlds reached from a fresh server by any sequence of operations
    (each of them may also end in an exception). *)
Inductive reachable : world -> Prop :=
| reach_init : reachable empty_world
| reach_step (w : world) (o : op) :
    reachable w -> op_valid o -> reachable (snd (run_op o w)).

(** A task and its later version: same id, description and priority, and a
    completion flag that stayed set if it was set. *)
Definition upgraded (t t' : task) : Prop :=
  id t' = id t /\ description t' = description t /\ priority t' = priority t /\
  (completed t = true -> completed t' = true).

(** [C'] keeps some of the tasks of [C], unchanged and in order. *)
Inductive sublist : list task -> list task -> Prop :=
| sub_nil : sublist [] []
| sub_keep (t : task) (C C' : list task) : sublist C C' -> sublist (t :: C) (t :: C')
| sub_drop (t : task) (C C' : list task) : sublist C C' -> sublist (t :: C) C'.

(** How the loaded collection [C] of a world relates to the one [C'] loaded
    after the operation [o]. *)
Definition op_effect (o : op) (C C' : list task) : Prop :=
  match o with
  | OpAdd _ _ => exists x, C' = C ++ [x] /\ completed x = false
  | OpList => C' = C
  | OpComplete _ => Forall2 upgraded C C'
  | OpDelete _ => sublist C C'
  end.

(** The store of a world holds the collection [C]: the tasks file is what
    [save C] writes, or it is absent and [C] is empty. *)
Definition store_holds (w : world) (C : list task) : Prop :=
  Forall task_valid C /\
  (stored w = Some (dumps (collection_json C)) \/ (stored w = None /\ C = [])).

End Facts.
Import Facts.

(** ** The tool table of [SimulatedMCPServer] *)
Module Server.

(** [self.tools] as [__init__] sets it. *)
Definition tools : dict pystr :=
  [(ps "read_file", ps "Read contents of a file");
   (ps "write_file", ps "Write contents to a file");
   (ps "list_directory", ps "List files in a directory")].

(** [list_tools()] *)
Definition list_tools : dict pystr := tools.

End Server.

(** ** [TaskManager] of the networked variant *)
Module NetManager.

(** What an operation prints: the refusal when [self.session] is unset, or
    the report of the simulated variant. *)
Inductive outcome := NotConnected | Done (r : Simple.report).

(** [f"/tmp/{self.tasks_file}"] *)
Definition tasks_path : pystr := ps "/tmp/tasks.json".

Section Session.

(** The state of the MCP server behind the session. *)
Context {St : Type}.

(** [await self.session.call_tool(name, arguments)]: the content items of
    the result, or the exception raised, and the server's new state. *)
Variable session_call : pystr -> dict pystr -> St -> res (list Net.content_item) * St.

(** [_read_tasks] *)
Definition read_tasks (s : St) : json * St :=
  let (r, s') := session_call (ps "read_file") [(ps "path", tasks_path)] s in
  (Net.read_tasks r, s').

(** [_write_tasks]: an exception of the call is not caught. *)
Definition write_tasks (tasks : json) (s : St) : res unit * St :=
  let (r, s') := session_call (ps "write_file")
                   [(ps "path", tasks_path); (ps "content", dumps tasks)] s in
  (match r with Ok _ => Ok tt | Raise e => Raise e end, s').

(** [add_task(description, priority)]; [connected] is [bool(self.session)]. *)
Definition add_task (connected : bool) (description priority : pystr) (s : St)
  : res outcome * St :=
  if negb connected then (Ok NotConnected, s) else
  let (tasks, s1) := read_tasks s in
  match py_len tasks with
  | Raise e => (Raise e, s1)
  | Ok n =>
      match py_append tasks (Simple.new_task (n + 1) description priority) with
      | Raise e => (Raise e, s1)
      | Ok tasks' =>
          let (r, s2) := write_tasks tasks' s1 in
          (match r with
           | Ok _ => Ok (Done (Simple.Added description priority))
           | Raise e => Raise e
           end, s2)
      end
  end.

(** [list_tasks()] *)
Definition list_tasks (connected : bool) (s : St) : res outcome * St :=
  if negb connected then (Ok NotConnected, s) else
  let (tasks, s1) := read_tasks s in
  if negb (truthy tasks) then (Ok (Done Simple.NoTasks), s1)
  else
    ((elems <-? py_iter tasks ;;
      rows <-? Simple.render_all elems ;;
      Ok (Done (Simple.Listed rows))), s1).

(** The [for] loop of [complete_task]; [i] is the position of [task]. *)
Fixpoint complete_loop (task_id : Z) (tasks : json) (i : nat) (elems : list json)
  (s : St) : res outcome * St :=
  match elems with
  | [] => (Ok (Done (Simple.NotFound task_id)), s)
  | task :: rest =>
      match getitem task (ps "id") with
      | Raise e => (Raise e, s)
      | Ok v =>
          if eq_int v task_id then
            match setitem task (ps "completed") (JBool true) with
            | Raise e => (Raise e, s)
            | Ok task' =>
                match replace_at tasks i task' with
                | Raise e => (Raise e, s)
                | Ok tasks' =>
                    let (r, s') := write_tasks tasks' s in
                    (match r with
                     | Ok _ => Ok (Done (Simple.Completed task_id))
                     | Raise e => Raise e
                     end, s')
                end
            end
          else complete_loop task_id tasks (S i) rest s
      end
  end.

(** [complete_task(task_id)] *)
Definition complete_task (connected : bool) (task_id : Z) (s : St) : res outcome * St :=
  if negb connected then (Ok NotConnected, s) else
  let (tasks, s1) := read_tasks s in
  match py_iter tasks with
  | Raise e => (Raise e, s1)
  | Ok elems => complete_loop task_id tasks O elems s1
  end.

End Session.

End NetManager.

(** ** What the operations are expected to produce *)
Module Expected.

(** The priority marker: high is red, medium yellow, low green, any other
    priority white. *)
Definition glyph_of (p : pystr) : Simple.glyph :=
  if pystr_eqb p (ps "high") then Simple.Red
  else if pystr_eqb p (ps "medium") then Simple.Yellow
  else if pystr_eqb p (ps "low") then Simple.Green
  else Simple.White.

Definition row_of (t : task) : Simple.row :=
  Simple.mkRow (completed t) (JInt (id t)) (glyph_of (priority t)) (JStr (description t)).

(** The tasks that successive [add_task] calls create, numbered from [k]. *)
Fixpoint numbered (k : nat) (l : list (pystr * pystr)) : list task :=
  match l with
  | [] => []
  | (d, p) :: r => mkTask (Z.of_nat k) d p false :: numbered (S k) r
  end.

End Expected.

(** * Proofs *)

(** ** Arithmetic of the escapes *)
Module Arith.

Lemma lor_shiftl_small (a d k : Z) :
  0 <= k -> 0 <= d < 2 ^ k -> Z.lor (Z.shiftl a k) d = a * 2 ^ k + d.
Proof.
  intros Hk Hd.
  rewrite Z.shiftl_mul_pow2 by exact Hk.
  assert (Hl : Z.land (a * 2 ^ k) d = 0).
  { apply Z.bits_inj'; intros n Hn.
    rewrite Z.land_spec, Z.bits_0.
    destruct (Z.lt_ge_cases n k) as [Hlt | Hge].
    - rewrite Z.mul_pow2_bits_low by exact Hlt. reflexivity.
    - rewrite <- (Z.mod_small d (2 ^ k)) by exact Hd.
      rewrite Z.mod_pow2_bits_high by lia. apply andb_false_r. }
  rewrite <- Z.lxor_lor by exact Hl.
  rewrite Z.add_nocarry_lxor by exact Hl. reflexivity.
Qed.

Lemma nibble (n k : Z) : 0 <= k -> Z.land (Z.shiftr n k) 15 = n / 2 ^ k mod 16.
Proof.
  intros Hk. rewrite Z.shiftr_div_pow2 by exact Hk.
  change 15 with (Z.ones 4). rewrite Z.land_ones by lia. reflexivity.
Qed.

Lemma hexval_hexdigit (d : Z) : 0 <= d < 16 -> hexval (hexdigit d) = Some d.
Proof.
  intros Hd.
  assert (d = 0 \/ d = 1 \/ d = 2 \/ d = 3 \/ d = 4 \/ d = 5 \/ d = 6 \/ d = 7 \/
          d = 8 \/ d = 9 \/ d = 10 \/ d = 11 \/ d = 12 \/ d = 13 \/ d = 14 \/ d = 15)
    as Hc by lia.
  repeat destruct Hc as [Hc | Hc]; subst; reflexivity.
Qed.

Lemma four_nibbles (n : Z) : 0 <= n < 65536 ->
  ((n / 4096 mod 16 * 16 + n / 256 mod 16) * 16 + n / 16 mod 16) * 16 + n mod 16 = n.
Proof.
  intros Hn.
  assert (E1 : n / 256 = n / 16 / 16) by (rewrite Z.div_div by lia; reflexivity).
  assert (E2 : n / 4096 = n / 16 / 16 / 16)
    by (rewrite !Z.div_div by lia; reflexivity).
  rewrite E1, E2.
  set (q1 := n / 16). set (q2 := q1 / 16). set (q3 := q2 / 16).
  assert (D0 := Z.div_mod n 16 ltac:(lia)).
  assert (D1 := Z.div_mod q1 16 ltac:(lia)).
  assert (D2 := Z.div_mod q2 16 ltac:(lia)).
  assert (Q3 : 0 <= q3 < 16).
  { unfold q3, q2, q1. rewrite !Z.div_div by lia. split.
    - apply Z.div_pos; lia.
    - apply Z.div_lt_upper_bound; lia. }
  rewrite (Z.mod_small q3 16) by exact Q3.
  fold q2 in D1. fold q3 in D2. fold q1 in D0. lia.
Qed.

Lemma hex4_u_escape (n : Z) : 0 <= n < 65536 ->
  match u_escape n with
  | [_; _; h1; h2; h3; h4] => hex4 h1 h2 h3 h4 = Some n
  | _ => False
  end.
Proof.
  intros Hn. unfold u_escape.
  rewrite !nibble by lia.
  change 15 with (Z.ones 4). rewrite Z.land_ones by lia.
  change (2 ^ 12) with 4096. change (2 ^ 8) with 256. change (2 ^ 4) with 16.
  unfold hex4.
  rewrite !hexval_hexdigit by (apply Z.mod_pos_bound; lia).
  rewrite !(lor_shiftl_small _ _ 4) by (try lia; change (2 ^ 4) with 16;
                                        apply Z.mod_pos_bound; lia).
  change (2 ^ 4) with 16. f_equal. apply four_nibbles. exact Hn.
Qed.

Lemma not_surrogate (c : Z) : c < 55296 -> is_high c = false /\ is_low c = false.
Proof.
  intros Hc. unfold is_high, is_low.
  rewrite (proj2 (Z.leb_gt 55296 c)) by lia.
  rewrite (proj2 (Z.leb_gt 56320 c)) by lia. split; reflexivity.
Qed.

Lemma surrogate_split (c : Z) : 65536 <= c <= 1114111 ->
  Z.lor 55296 (Z.land (Z.shiftr (c - 65536) 10) 1023) = 55296 + (c - 65536) / 1024 /\
  Z.lor 56320 (Z.land (c - 65536) 1023) = 56320 + (c - 65536) mod 1024 /\
  0 <= (c - 65536) / 1024 < 1024 /\ 0 <= (c - 65536) mod 1024 < 1024.
Proof.
  intros Hc.
  assert (Q : 0 <= (c - 65536) / 1024 < 1024).
  { split; [apply Z.div_pos; lia | apply Z.div_lt_upper_bound; lia]. }
  assert (R : 0 <= (c - 65536) mod 1024 < 1024) by (apply Z.mod_pos_bound; lia).
  change 1023 with (Z.ones 10).
  rewrite Z.shiftr_div_pow2, !Z.land_ones by lia.
  change (2 ^ 10) with 1024.
  rewrite (Z.mod_small ((c - 65536) / 1024) 1024) by exact Q.
  change 55296 with (54 * 2 ^ 10). change 56320 with (55 * 2 ^ 10).
  rewrite <- !Z.shiftl_mul_pow2 by lia.
  rewrite !lor_shiftl_small by (try change (2 ^ 10) with 1024; lia).
  rewrite !Z.shiftl_mul_pow2 by lia.
  change (2 ^ 10) with 1024. lia.
Qed.

Lemma join_split (c : Z) : 65536 <= c <= 1114111 ->
  join_surrogates (55296 + (c - 65536) / 1024) (56320 + (c - 65536) mod 1024) = c.
Proof.
  intros Hc.
  assert (Q : 0 <= (c - 65536) / 1024 < 1024).
  { split; [apply Z.div_pos; lia | apply Z.div_lt_upper_bound; lia]. }
  assert (R : 0 <= (c - 65536) mod 1024 < 1024) by (apply Z.mod_pos_bound; lia).
  unfold join_surrogates. change 1023 with (Z.ones 10).
  rewrite !Z.land_ones by lia. change (2 ^ 10) with 1024.
  rewrite (Z.add_comm 55296), (Z.add_comm 56320).
  change 55296 with (54 * 1024). change 56320 with (55 * 1024).
  rewrite !Z.mod_add by lia.
  rewrite !Z.mod_small by assumption.
  rewrite lor_shiftl_small by (try change (2 ^ 10) with 1024; lia).
  change (2 ^ 10) with 1024.
  assert (D := Z.div_mod (c - 65536) 1024 ltac:(lia)). lia.
Qed.

End Arith.
Import Arith.

(** ** Decoding what [dumps] writes for a string *)
Module StrRoundTrip.

Lemma escape_cases (c : Z) : valid_cp c ->
  (escape_char c = [c] /\ c <> 92 /\ c <> 34 /\ 32 <= c /\
   is_high c = false /\ is_low c = false)
  \/ (exists e, escape_char c = [92; e] /\ e <> 117 /\ simple_escape e = Some c /\
      is_high c = false /\ is_low c = false)
  \/ (0 <= c < 65536 /\ escape_char c = u_escape c)
  \/ (65536 <= c <= 1114111 /\
      escape_char c = u_escape (55296 + (c - 65536) / 1024)
                        ++ u_escape (56320 + (c - 65536) mod 1024)).
Proof.
  unfold valid_cp. intros Hc.
  assert (Small : forall e, c = e -> e < 55296 -> is_high c = false /\ is_low c = false)
    by (intros e -> He; apply not_surrogate; exact He).
  unfold escape_char.
  destruct (Z.eqb_spec c 92) as [E|E].
  { right; left; exists 92. subst. repeat split; try discriminate; reflexivity. }
  destruct (Z.eqb_spec c 34) as [E'|E'].
  { right; left; exists 34. subst. repeat split; try discriminate; reflexivity. }
  destruct (Z.eqb_spec c 8) as [E8|E8].
  { right; left; exists 98. subst. repeat split; try discriminate; reflexivity. }
  destruct (Z.eqb_spec c 12) as [E12|E12].
  { right; left; exists 102. subst. repeat split; try discriminate; reflexivity. }
  destruct (Z.eqb_spec c 10) as [E10|E10].
  { right; left; exists 110. subst. repeat split; try discriminate; reflexivity. }
  destruct (Z.eqb_spec c 13) as [E13|E13].
  { right; left; exists 114. subst. repeat split; try discriminate; reflexivity. }
  destruct (Z.eqb_spec c 9) as [E9|E9].
  { right; left; exists 116. subst. repeat split; try discriminate; reflexivity. }
  destruct ((32 <=? c) && (c <=? 126)) eqn:P.
  { apply andb_true_iff in P. destruct P as [P1 P2].
    apply Z.leb_le in P1. apply Z.leb_le in P2.
    left. destruct (not_surrogate c ltac:(lia)). repeat split; assumption. }
  destruct (Z.ltb_spec c 65536) as [L|L].
  { right; right; left. split; [lia | reflexivity]. }
  right; right; right. split; [lia|].
  destruct (surrogate_split c ltac:(lia)) as [H1 [H2 _]].
  rewrite H1, H2. reflexivity.
Qed.

Lemma u_escape_shape (n : Z) : 0 <= n < 65536 ->
  exists h1 h2 h3 h4, u_escape n = [92; 117; h1; h2; h3; h4] /\ hex4 h1 h2 h3 h4 = Some n.
Proof.
  intros Hn. pose proof (hex4_u_escape n Hn) as H.
  unfold u_escape in *. do 4 eexists. split; [reflexivity | exact H].
Qed.

Lemma scanstring_u_other h1 h2 h3 h4 u r2 :
  hex4 h1 h2 h3 h4 = Some u ->
  (is_high u = false \/
   forall g1 g2 g3 g4 r3, r2 = 92 :: 117 :: g1 :: g2 :: g3 :: g4 :: r3 ->
     exists u2, hex4 g1 g2 g3 g4 = Some u2 /\ is_low u2 = false) ->
  scanstring (92 :: 117 :: h1 :: h2 :: h3 :: h4 :: r2) = cons_char u (scanstring r2).
Proof.
  intros Hu Hnext. cbn [scanstring]. rewrite Hu. simpl.
  destruct (is_high u) eqn:Hh; [|reflexivity].
  destruct Hnext as [Hf | Hnext]; [discriminate|].
  destruct r2 as [|x [|y [|g1 [|g2 [|g3 [|g4 r3]]]]]]; try reflexivity.
  destruct (Z.eqb_spec x 92); destruct (Z.eqb_spec y 117); subst; simpl; try reflexivity.
  destruct (Hnext g1 g2 g3 g4 r3 eq_refl) as [u2 [H2 H2']].
  rewrite H2, H2'. reflexivity.
Qed.

Lemma scanstring_u_pair h1 h2 h3 h4 u g1 g2 g3 g4 u2 r3 :
  hex4 h1 h2 h3 h4 = Some u -> is_high u = true ->
  hex4 g1 g2 g3 g4 = Some u2 -> is_low u2 = true ->
  scanstring (92 :: 117 :: h1 :: h2 :: h3 :: h4 :: 92 :: 117 :: g1 :: g2 :: g3 :: g4 :: r3)
  = cons_char (join_surrogates u u2) (scanstring r3).
Proof.
  intros Hu Hh Hu2 Hl. cbn [scanstring]. rewrite Hu. simpl. rewrite Hh.
  rewrite Hu2. simpl. rewrite Hl. reflexivity.
Qed.

Lemma join_pairs_nothigh (c : Z) (s : pystr) :
  is_high c = false -> join_pairs (c :: s) = c :: join_pairs s.
Proof. intros H. destruct s; simpl; [reflexivity | rewrite H; reflexivity]. Qed.

Lemma join_pairs_notlow (c c2 : Z) (s : pystr) :
  is_low c2 = false -> join_pairs (c :: c2 :: s) = c :: join_pairs (c2 :: s).
Proof. intros H. simpl. rewrite H, andb_false_r. reflexivity. Qed.

Lemma join_pairs_pair (c c2 : Z) (s : pystr) :
  is_high c = true -> is_low c2 = true ->
  join_pairs (c :: c2 :: s) = join_surrogates c c2 :: join_pairs s.
Proof. intros H H2. simpl. rewrite H, H2. reflexivity. Qed.

Lemma high_not_low (u : Z) : is_high u = true -> is_low u = false.
Proof.
  unfold is_high, is_low. intros H.
  apply andb_true_iff in H. destruct H as [_ H]. apply Z.leb_le in H.
  rewrite (proj2 (Z.leb_gt 56320 u)) by lia. reflexivity.
Qed.

Lemma split_high_low (c : Z) : 65536 <= c <= 1114111 ->
  is_high (55296 + (c - 65536) / 1024) = true /\
  is_low (56320 + (c - 65536) mod 1024) = true /\
  0 <= 55296 + (c - 65536) / 1024 < 65536 /\
  0 <= 56320 + (c - 65536) mod 1024 < 65536.
Proof.
  intros Hc. destruct (surrogate_split c Hc) as [_ [_ [Q R]]].
  unfold is_high, is_low.
  rewrite (proj2 (Z.leb_le 55296 _)) by lia.
  rewrite (proj2 (Z.leb_le _ 56319)) by lia.
  rewrite (proj2 (Z.leb_le 56320 _)) by lia.
  rewrite (proj2 (Z.leb_le _ 57343)) by lia. repeat split; lia.
Qed.

(** What follows a high surrogate's escape, when it is not a low one. *)
Lemma next_not_low (c2 : Z) (s r : pystr) :
  valid_cp c2 -> is_low c2 = false ->
  forall g1 g2 g3 g4 r3,
    escape_char c2 ++ s ++ r = 92 :: 117 :: g1 :: g2 :: g3 :: g4 :: r3 ->
    exists u2, hex4 g1 g2 g3 g4 = Some u2 /\ is_low u2 = false.
Proof.
  intros Hc Hl g1 g2 g3 g4 r3 Heq.
  destruct (escape_cases c2 Hc)
    as [[E [N92 _]] | [[e [E [Ne _]]] | [[Rc E] | [Rc E]]]]; rewrite E in Heq.
  - injection Heq as H1. contradiction.
  - injection Heq as H1 H2. contradiction.
  - destruct (u_escape_shape c2 Rc) as [h1 [h2 [h3 [h4 [Eu Hx]]]]].
    rewrite Eu in Heq. injection Heq as -> -> -> -> _.
    exists c2. split; assumption.
  - destruct (split_high_low c2 Rc) as [Hh [_ [Rh _]]].
    destruct (u_escape_shape _ Rh) as [h1 [h2 [h3 [h4 [Eu Hx]]]]].
    rewrite <- app_assoc, Eu in Heq. injection Heq as -> -> -> -> _.
    eexists. split; [exact Hx | apply high_not_low; exact Hh].
Qed.

Lemma scanstring_escaped_n (n : nat) : forall s r,
  (List.length s <= n)%nat -> Forall valid_cp s ->
  scanstring (flat_map escape_char s ++ 34 :: r) = Some (join_pairs s, r).
Proof.
  induction n as [|n IH]; intros s r Hlen Hv.
  { destruct s; [reflexivity | simpl in Hlen; lia]. }
  destruct s as [|c s']; [reflexivity|].
  inversion Hv as [|? ? Hc Hs']; subst. simpl in Hlen.
  cbn [flat_map]. rewrite <- app_assoc.
  destruct (escape_cases c Hc)
    as [[E [N92 [N34 [G32 [Hh Hl]]]]] | [[e [E [Ne [Se [Hh Hl]]]]] | [[Rc E] | [Rc E]]]];
    rewrite E.
  - (* printed as itself *)
    rewrite join_pairs_nothigh by exact Hh. cbn [app scanstring].
    rewrite (proj2 (Z.eqb_neq c 34) N34), (proj2 (Z.eqb_neq c 92) N92).
    rewrite (proj2 (Z.ltb_ge c 32)) by lia.
    rewrite IH by (lia || assumption). reflexivity.
  - (* a one-character escape *)
    rewrite join_pairs_nothigh by exact Hh. cbn [app scanstring].
    change (92 =? 34) with false. change (92 =? 92) with true. cbv iota beta.
    rewrite (proj2 (Z.eqb_neq e 117) Ne), Se.
    rewrite IH by (lia || assumption). reflexivity.
  - (* a [\uXXXX] escape *)
    destruct (u_escape_shape c Rc) as [h1 [h2 [h3 [h4 [Eu Hx]]]]].
    rewrite Eu. cbn [app].
    destruct (is_high c) eqn:Hh.
    2:{ rewrite (scanstring_u_other _ _ _ _ c _ Hx (or_introl Hh)).
        rewrite IH by (lia || assumption).
        rewrite join_pairs_nothigh by exact Hh. reflexivity. }
    destruct s' as [|c2 s''].
    { rewrite (scanstring_u_other _ _ _ _ c _ Hx).
      - reflexivity.
      - right. intros g1 g2 g3 g4 r3 Heq. discriminate Heq. }
    inversion Hs' as [|? ? Hc2 Hs'']; subst. simpl in Hlen.
    destruct (is_low c2) eqn:Hl2.
    + (* a high and a low surrogate: joined *)
      assert (Rc2 : 0 <= c2 < 65536).
      { unfold is_low in Hl2. apply andb_true_iff in Hl2.
        destruct Hl2 as [_ Hl2]. apply Z.leb_le in Hl2. unfold valid_cp in Hc2. lia. }
      assert (E2 : escape_char c2 = u_escape c2).
      { destruct (escape_cases c2 Hc2)
          as [[_ [_ [_ [_ [_ F]]]]] | [[e [_ [_ [_ [_ F]]]]] | [[_ E2] | [R2 _]]]];
          [congruence | congruence | exact E2 | lia]. }
      destruct (u_escape_shape c2 Rc2) as [k1 [k2 [k3 [k4 [Eu2 Hx2]]]]].
      cbn [flat_map]. rewrite <- app_assoc, E2, Eu2. cbn [app].
      rewrite (scanstring_u_pair _ _ _ _ c _ _ _ _ c2 _ Hx Hh Hx2 Hl2).
      rewrite IH by (lia || assumption).
      rewrite join_pairs_pair by assumption. reflexivity.
    + rewrite (scanstring_u_other _ _ _ _ c _ Hx).
      * rewrite IH by (simpl; lia || assumption).
        rewrite join_pairs_notlow by exact Hl2. reflexivity.
      * right. cbn [flat_map]. rewrite <- app_assoc.
        apply next_not_low; assumption.
  - (* outside the BMP: a surrogate pair of escapes *)
    destruct (split_high_low c Rc) as [Hh [Hl [Rh Rl]]].
    destruct (u_escape_shape _ Rh) as [h1 [h2 [h3 [h4 [Eu Hx]]]]].
    destruct (u_escape_shape _ Rl) as [k1 [k2 [k3 [k4 [Eu2 Hx2]]]]].
    rewrite <- app_assoc, Eu, Eu2. cbn [app].
    rewrite (scanstring_u_pair _ _ _ _ _ _ _ _ _ _ _ Hx Hh Hx2 Hl).
    rewrite join_split by exact Rc.
    rewrite IH by (lia || assumption).
    rewrite join_pairs_nothigh; [reflexivity|].
    unfold is_high. rewrite (proj2 (Z.leb_gt c 56319)) by lia. apply andb_false_r.
Qed.

Lemma scanstring_escaped (s r : pystr) : Forall valid_cp s ->
  scanstring (flat_map escape_char s ++ 34 :: r) = Some (join_pairs s, r).
Proof. intros Hv. apply (scanstring_escaped_n (List.length s)); [lia | exact Hv]. Qed.

End StrRoundTrip.

(** ** Decoding what [dumps] writes for an integer *)
Module IntRoundTrip.


Lemma uint_of_chars_uint_chars (u : Decimal.uint) : uint_of_chars (uint_chars u) = u.
Proof. induction u; simpl; rewrite ?IHu; reflexivity. Qed.

Lemma take_digits_uint (u : Decimal.uint) (r : pystr) : ends_number r ->
  take_digits (uint_chars u ++ r) = (uint_chars u, r).
Proof.
  intros [x [r' [-> [Hx _]]]].
  induction u; simpl; try rewrite IHu; try reflexivity.
  simpl. rewrite Hx. reflexivity.
Qed.

Lemma pos_uint_lead (p : positive) :
  match Pos.to_uint p with
  | Decimal.Nil | Decimal.D0 _ => False
  | _ => True
  end.
Proof.
  assert (E : Pos.to_uint p = Decimal.unorm (Pos.to_uint p)).
  { rewrite <- DecimalPos.Unsigned.to_of, DecimalPos.Unsigned.of_to. reflexivity. }
  pose proof (DecimalPos.Unsigned.to_uint_nonzero p) as Nz.
  unfold Decimal.unorm in E.
  destruct (Decimal.nzhead (Pos.to_uint p)) eqn:N.
  1: exfalso; exact (Nz E).
  1: exfalso; exact (nzhead_nonzero _ _ N).
  all: rewrite E; exact I.
Qed.

Lemma of_uint_to_uint (p : positive) : Z.of_uint (Pos.to_uint p) = Z.pos p.
Proof. unfold Z.of_uint. rewrite DecimalPos.Unsigned.of_to. reflexivity. Qed.

Lemma frac_none (x : Z) (r : pystr) : x <> 46 -> frac_part (x :: r) = ([], x :: r).
Proof.
  intros Hx. destruct r as [|y r]; [reflexivity|]. simpl.
  rewrite (proj2 (Z.eqb_neq x 46) Hx). reflexivity.
Qed.

Lemma exp_none (x : Z) (r : pystr) : x <> 101 -> x <> 69 -> exp_part (x :: r) = (None, x :: r).
Proof.
  intros H1 H2. simpl.
  rewrite (proj2 (Z.eqb_neq x 101) H1), (proj2 (Z.eqb_neq x 69) H2). reflexivity.
Qed.

(** The digits of a positive number, then what ends the number. *)
Lemma match_number_pos (p : positive) (r : pystr) : ends_number r ->
  int_part (uint_chars (Pos.to_uint p) ++ r) = Some (uint_chars (Pos.to_uint p), r).
Proof.
  intros Hr. pose proof (pos_uint_lead p) as L.
  destruct (Pos.to_uint p) as [|u|u|u|u|u|u|u|u|u|u] eqn:E; try contradiction;
    cbn [uint_chars app int_part]; simpl;
    rewrite take_digits_uint by exact Hr; reflexivity.
Qed.

Lemma match_number_int (z : Z) (r : pystr) : ends_number r ->
  match_number (int_repr z ++ r) = Some (JInt z, r).
Proof.
  intros Hr. pose proof Hr as [x [r' [Er [Hd [H46 [H101 H69]]]]]].
  unfold match_number, int_repr. destruct z as [|p|p]; simpl Z.to_int; cbv iota.
  - subst r. simpl. destruct r' as [|y r''];
      [| rewrite (proj2 (Z.eqb_neq x 46) H46)]; simpl;
      rewrite (proj2 (Z.eqb_neq x 101) H101), (proj2 (Z.eqb_neq x 69) H69); reflexivity.
  - pose proof (match_number_pos p r Hr) as M.
    assert (Hs : exists c t, uint_chars (Pos.to_uint p) ++ r = c :: t /\ c <> 45).
    { pose proof (pos_uint_lead p) as L.
      destruct (Pos.to_uint p); try contradiction; eexists; eexists; split;
        try reflexivity; discriminate. }
    destruct Hs as [c [t [Ec Nc]]]. rewrite Ec. cbv iota beta.
    rewrite (proj2 (Z.eqb_neq c 45) Nc). cbv iota beta zeta.
    rewrite <- Ec, M.
    subst r. rewrite frac_none by exact H46. rewrite exp_none by assumption.
    unfold value_of_digits. rewrite uint_of_chars_uint_chars, of_uint_to_uint. reflexivity.
  - cbn [app]. change (45 =? 45) with true. cbv iota beta zeta.
    rewrite match_number_pos by exact Hr.
    subst r. rewrite frac_none by exact H46. rewrite exp_none by assumption.
    unfold value_of_digits. rewrite uint_of_chars_uint_chars, of_uint_to_uint. reflexivity.
Qed.

Lemma scan_once_int (f : nat) (z : Z) (r : pystr) : ends_number r ->
  scan_once (S f) (int_repr z ++ r) = Some (JInt z, r).
Proof.
  intros Hr. rewrite <- (match_number_int z r Hr).
  pose proof Hr as [x [r' [Er [Hd _]]]].
  unfold int_repr. destruct z as [|p|p]; simpl Z.to_int; cbv iota.
  - subst r. simpl in Hd |- *. reflexivity.
  - pose proof (pos_uint_lead p) as L.
    destruct (Pos.to_uint p) as [|u|u|u|u|u|u|u|u|u|u]; try contradiction;
      reflexivity.
  - pose proof (pos_uint_lead p) as L.
    destruct (Pos.to_uint p) as [|u|u|u|u|u|u|u|u|u|u]; try contradiction;
      reflexivity.
Qed.

End IntRoundTrip.

(** ** Decoding what [dumps] writes for a task collection *)
Module CollectionRoundTrip.
Import StrRoundTrip IntRoundTrip.

Lemma skip_ws_indent (n : nat) (r : pystr) : skip_ws (indent n ++ r) = skip_ws r.
Proof. unfold indent. induction (2 * n)%nat as [|k IH]; [reflexivity | exact IH]. Qed.

Lemma skip_ws_nl (n : nat) (r : pystr) : skip_ws (10 :: indent n ++ r) = skip_ws r.
Proof. apply skip_ws_indent. Qed.

Lemma skip_ws_stop (c : Z) (r : pystr) : is_ws c = false -> skip_ws (c :: r) = c :: r.
Proof. intros H. simpl. rewrite H. reflexivity. Qed.

Lemma scan_once_obj (f : nat) (r : pystr) :
  scan_once (S f) (123 :: r) =
  match skip_ws r with
  | (x :: r') as r1 => if x =? 125 then Some (JObj [], r') else parse_object f r1 []
  | [] => None
  end.
Proof. reflexivity. Qed.

Lemma scan_once_arr (f : nat) (r : pystr) :
  scan_once (S f) (91 :: r) =
  match skip_ws r with
  | (x :: r') as r1 => if x =? 93 then Some (JArr [], r') else parse_array f r1 []
  | [] => None
  end.
Proof. reflexivity. Qed.

Lemma scan_once_str (f : nat) (s r : pystr) : Forall valid_cp s ->
  scan_once (S f) (34 :: flat_map escape_char s ++ 34 :: r) = Some (JStr (join_pairs s), r).
Proof.
  intros Hv. cbn [scan_once]. change (34 =? 34) with true. cbv iota beta.
  rewrite scanstring_escaped by exact Hv. reflexivity.
Qed.

Lemma scan_once_bool (f : nat) (b : bool) (r : pystr) :
  scan_once (S f) ((if b then ps "true" else ps "false") ++ r) = Some (JBool b, r).
Proof. destruct b; reflexivity. Qed.

Lemma parse_object_entry (f : nat) (k s : pystr) (v : json) (tail : pystr)
  (acc : dict json) :
  Forall valid_cp k ->
  skip_ws s = s ->
  scan_once f s = Some (v, tail) ->
  parse_object (S f) (34 :: flat_map escape_char k ++ 34 :: 58 :: 32 :: s) acc =
  match skip_ws tail with
  | z :: r4 =>
      if z =? 125 then Some (JObj (dict_set acc (join_pairs k) v), r4)
      else if z =? 44 then parse_object f (skip_ws r4) (dict_set acc (join_pairs k) v)
      else None
  | [] => None
  end.
Proof.
  intros Hk Hws Hv. cbn [parse_object]. change (34 =? 34) with true. cbv iota beta.
  rewrite scanstring_escaped by exact Hk.
  rewrite (skip_ws_stop 58) by reflexivity.
  change (58 =? 58) with true. cbv iota beta.
  change (skip_ws (32 :: s)) with (skip_ws s).
  rewrite Hws, Hv. reflexivity.
Qed.

Lemma skip_ws_int (z : Z) (r : pystr) : skip_ws (int_repr z ++ r) = int_repr z ++ r.
Proof.
  unfold int_repr. destruct z as [|p|p]; simpl Z.to_int; cbv iota; [reflexivity| |reflexivity].
  pose proof (pos_uint_lead p) as L.
  destruct (Pos.to_uint p); try contradiction; reflexivity.
Qed.

Lemma skip_ws_bool (b : bool) (r : pystr) :
  skip_ws ((if b then ps "true" else ps "false") ++ r)
  = (if b then ps "true" else ps "false") ++ r.
Proof. destruct b; reflexivity. Qed.

Lemma ends_number_comma (r : pystr) : ends_number (44 :: r).
Proof. exists 44, r. repeat split; discriminate. Qed.

Create Rewrite HintDb app_norm.
#[local] Hint Rewrite <- List.app_assoc List.app_comm_cons : app_norm.
#[local] Hint Rewrite List.app_nil_l : app_norm.

Ltac ascii_valid := cbv [ps]; simpl; repeat constructor; unfold valid_cp; lia.

Ltac next_entry :=
  rewrite (skip_ws_stop 44) by reflexivity;
  change (44 =? 125) with false; change (44 =? 44) with true; cbv iota beta;
  rewrite skip_ws_nl, (skip_ws_stop 34) by reflexivity.

Lemma scan_once_task (f : nat) (t : task) (r : pystr) : (6 <= f)%nat -> task_valid t ->
  scan_once f (encode 1 (task_json t) ++ r) = Some (task_json (normalize_task t), r).
Proof.
  intros Hf [Hd Hp]. do 6 (destruct f as [|f]; [lia|]).
  cbn [encode task_json]. unfold encode_basestring_ascii.
  autorewrite with app_norm.
  rewrite scan_once_obj, skip_ws_nl, (skip_ws_stop 34) by reflexivity.
  change (34 =? 125) with false. cbv iota beta.
  erewrite parse_object_entry;
    [| ascii_valid | apply skip_ws_int | apply scan_once_int, ends_number_comma].
  next_entry.
  erewrite parse_object_entry;
    [| ascii_valid | reflexivity | apply scan_once_str; exact Hd].
  next_entry.
  erewrite parse_object_entry;
    [| ascii_valid | reflexivity | apply scan_once_str; exact Hp].
  next_entry.
  erewrite parse_object_entry;
    [| ascii_valid | apply skip_ws_bool | apply scan_once_bool].
  rewrite skip_ws_nl, (skip_ws_stop 125) by reflexivity.
  change (125 =? 125) with true. cbv iota beta.
  reflexivity.
Qed.
Lemma skip_ws_task (t : task) (r : pystr) :
  skip_ws (encode 1 (task_json t) ++ r) = encode 1 (task_json t) ++ r.
Proof. reflexivity. Qed.

Lemma parse_array_tasks (xs : list task) : forall (x : task) (acc : list json) (f : nat)
  (r : pystr),
  Forall task_valid (x :: xs) -> (7 + List.length xs <= f)%nat ->
  parse_array f
    (encode 1 (task_json x)
       ++ (fix items (l : list json) : pystr :=
             match l with
             | [] => []
             | y :: ys => 44 :: (10 :: indent 1) ++ encode 1 y ++ items ys
             end) (map task_json xs)
       ++ 10 :: 93 :: r) acc
  = Some (JArr (rev acc ++ map task_json (map normalize_task (x :: xs))), r).
Proof.
  induction xs as [|y ys IH]; intros x acc f r Hv Hf;
    destruct f as [|f]; [cbn in Hf; lia| |cbn in Hf; lia|];
    inversion Hv as [|? ? Hx Hxs]; subst; cbn [parse_array];
    rewrite scan_once_task by (cbn in Hf |- *; lia || assumption); cbv iota beta.
  - cbn [map]. cbn [app].
    change (skip_ws (10 :: 93 :: r)) with (skip_ws (93 :: r)).
    rewrite (skip_ws_stop 93) by reflexivity.
    change (93 =? 93) with true. cbv iota beta. reflexivity.
  - cbn [map]. autorewrite with app_norm.
    rewrite (skip_ws_stop 44) by reflexivity.
    change (44 =? 93) with false. change (44 =? 44) with true. cbv iota beta.
    rewrite skip_ws_nl, skip_ws_task.
    rewrite IH by (assumption || (cbn in Hf |- *; lia)).
    cbn [rev map]. rewrite <- app_assoc. reflexivity.
Qed.

Lemma items_length (xs : list task) :
  Nat.le (List.length xs)
   (List.length ((fix items (l : list json) : pystr :=
                   match l with
                   | [] => []
                   | y :: ys => 44 :: (10 :: indent 1) ++ encode 1 y ++ items ys
                   end) (map task_json xs))).
Proof.
  induction xs as [|x xs IH]; [cbn; lia|].
  cbn [map]. cbn [List.length]. rewrite !length_app. cbn [List.length]. lia.
Qed.

Lemma scan_once_arr_task (f : nat) (x : task) (R : pystr) :
  scan_once (S f) (91 :: 10 :: indent 1 ++ encode 1 (task_json x) ++ R)
  = parse_array f (encode 1 (task_json x) ++ R) [].
Proof. rewrite scan_once_arr, skip_ws_nl, skip_ws_task. reflexivity. Qed.

Lemma loads_dumps_collection (C : list task) : Forall task_valid C ->
  loads (dumps (collection_json C)) = Some (collection_json (map normalize_task C)).
Proof.
  intros Hv. destruct C as [|x xs]; [reflexivity|].
  unfold dumps, collection_json. cbn [map encode]. autorewrite with app_norm.
  unfold loads. change (91 =? 65279) with false. cbv iota beta.
  rewrite (skip_ws_stop 91) by reflexivity.
  rewrite scan_once_arr_task.
  rewrite parse_array_tasks.
  - reflexivity.
  - exact Hv.
  - pose proof (items_length xs). cbn [List.length]. rewrite !length_app.
    cbn [List.length]. lia.
Qed.

Lemma join_pairs_no_pair (s : pystr) : has_pair s = false -> join_pairs s = s.
Proof.
  induction s as [|h t IH]; [reflexivity|].
  destruct t as [|l r]; [reflexivity|].
  intros H. cbn [has_pair] in H. apply orb_false_iff in H. destruct H as [H1 H2].
  change (join_pairs (h :: l :: r)) with
    (if is_high h && is_low l then join_surrogates h l :: join_pairs r
     else h :: join_pairs (l :: r)).
  rewrite H1, (IH H2). reflexivity.
Qed.

End CollectionRoundTrip.

(** ** The operations on a stored task collection *)
Module StoreFacts.
Import Simple Arith CollectionRoundTrip.

Lemma pystr_eqb_refl (s : pystr) : pystr_eqb s s = true.
Proof. induction s as [|x s IH]; [reflexivity|]. simpl. rewrite Z.eqb_refl. exact IH. Qed.

Lemma dict_get_set_same {A} (d : dict A) (k : pystr) (v : A) :
  dict_get (dict_set d k v) k = Some v.
Proof.
  induction d as [|[k' v'] d IH]; simpl.
  - rewrite pystr_eqb_refl. reflexivity.
  - destruct (pystr_eqb k k') eqn:E; simpl; rewrite E; [reflexivity | exact IH].
Qed.

Lemma pystr_eqb_eq (a b : pystr) : pystr_eqb a b = true -> a = b.
Proof.
  revert b; induction a as [|x a IH]; intros [|y b] H; try discriminate; [reflexivity|].
  simpl in H. apply andb_true_iff in H as [H1 H2].
  apply Z.eqb_eq in H1. rewrite H1, (IH b H2). reflexivity.
Qed.

Lemma dict_set_get_same {A} (d : dict A) (k : pystr) (v : A) :
  dict_get d k = Some v -> dict_set d k v = d.
Proof.
  induction d as [|[k' v'] d IH]; simpl; [discriminate|].
  destruct (pystr_eqb k k'); intros H.
  - injection H as ->. reflexivity.
  - rewrite (IH H). reflexivity.
Qed.

Lemma read_tasks_eq (w : world) :
  read_tasks w =
  (match loads (match stored w with Some c => c | None => ps "[]" end) with
   | Some v => Ok v
   | None => Raise JSONDecodeError
   end, after_read w).
Proof.
  unfold read_tasks, bind, call_tool, stored, after_read. simpl.
  destruct (dict_get (filesystem w) tasks_file) as [c|]; simpl;
    [destruct (loads c) | destruct (loads (ps "[]"))]; reflexivity.
Qed.

Lemma read_tasks_split (w : world) (r : res json) :
  fst (read_tasks w) = r -> read_tasks w = (r, after_read w).
Proof. rewrite read_tasks_eq. simpl. intros <-. reflexivity. Qed.

Lemma write_tasks_eq (v : json) (w : world) :
  write_tasks v w =
  (Ok tt, mkWorld (dict_set (filesystem w) tasks_file (dumps v))
                  (calls w ++ [write_call (dumps v)])).
Proof. reflexivity. Qed.

Lemma add_task_json (w : world) (l : list json) (d p : pystr) :
  fst (read_tasks w) = Ok (JArr l) ->
  add_task d p w =
  (Ok (Added d p),
   snd (write_tasks (JArr (l ++ [new_task (Z.of_nat (List.length l) + 1) d p])) (after_read w))).
Proof.
  intros H. unfold add_task, bind. rewrite (read_tasks_split w _ H). reflexivity.
Qed.

Lemma list_tasks_world (w : world) : snd (list_tasks w) = after_read w.
Proof.
  unfold list_tasks, bind. rewrite read_tasks_eq.
  destruct (loads (match stored w with Some c => c | None => ps "[]" end)) as [v|];
    [|reflexivity].
  destruct (negb (truthy v)); [reflexivity|].
  unfold lift. destruct (py_iter v); [|reflexivity].
  destruct (render_all a); reflexivity.
Qed.

Lemma replace_nth_app (P S : list json) (x y : json) :
  replace_nth (P ++ y :: S) (List.length P) x = P ++ x :: S.
Proof. induction P as [|z P IH]; [reflexivity|]. simpl. rewrite IH. reflexivity. Qed.

Lemma complete_loop_collection (n : Z) (S : list task) : forall (P : list task) (w : world),
  complete_loop n (JArr (map task_json (P ++ S))) (List.length P) (map task_json S) w =
  match mark_first n S with
  | None => (Ok (NotFound n), w)
  | Some S' => (Ok (Completed n), snd (write_tasks (JArr (map task_json (P ++ S'))) w))
  end.
Proof.
  induction S as [|t S IH]; intros P w; [reflexivity|].
  cbn [map complete_loop mark_first]. unfold bind, lift. cbn [getitem task_json dict_get].
  change (pystr_eqb (ps "id") (ps "id")) with true. cbv iota beta.
  cbn [eq_int]. destruct (id t =? n) eqn:E.
  - change (setitem (task_json t) (ps "completed") (JBool true)) with (Ok (task_json (mark t))).
    cbv iota beta. unfold replace_at. rewrite map_app. cbn [map].
    rewrite <- (length_map task_json P), replace_nth_app, write_tasks_eq, map_app. reflexivity.
  - specialize (IH (P ++ [t]) w). rewrite <- app_assoc in IH. cbn [app] in IH.
    rewrite length_app in IH. cbn [List.length] in IH. rewrite Nat.add_1_r in IH.
    rewrite IH. destruct (mark_first n S); [|reflexivity].
    rewrite <- app_assoc. reflexivity.
Qed.

Lemma complete_task_collection (w : world) (C : list task) (n : Z) :
  fst (read_tasks w) = Ok (collection_json C) ->
  complete_task n w =
  match mark_first n C with
  | None => (Ok (NotFound n), after_read w)
  | Some C' => (Ok (Completed n), snd (write_tasks (collection_json C') (after_read w)))
  end.
Proof.
  intros H. unfold complete_task, bind. rewrite (read_tasks_split w _ H).
  unfold collection_json, lift. cbn [py_iter].
  exact (complete_loop_collection n C [] (after_read w)).
Qed.

Lemma keep_other_ids_collection (n : Z) (C : list task) :
  keep_other_ids n (map task_json C) = Ok (map task_json (filter (keeps_id n) C)).
Proof.
  induction C as [|t C IH]; [reflexivity|].
  cbn [map keep_other_ids filter]. cbn [getitem task_json dict_get].
  change (pystr_eqb (ps "id") (ps "id")) with true. cbv iota beta.
  cbn [rbind]. rewrite IH. cbn [rbind eq_int]. unfold keeps_id.
  destruct (negb (id t =? n)); reflexivity.
Qed.

Lemma delete_task_collection (w : world) (C : list task) (n : Z) :
  fst (read_tasks w) = Ok (collection_json C) ->
  delete_task n w =
  (Ok (Deleted n), snd (write_tasks (collection_json (filter (keeps_id n) C)) (after_read w))).
Proof.
  intros H. unfold delete_task, bind. rewrite (read_tasks_split w _ H).
  unfold collection_json, lift. cbn [py_iter].
  rewrite keep_other_ids_collection. reflexivity.
Qed.

Lemma mark_first_none (n : Z) (C : list task) :
  Forall (fun t => id t <> n) C -> mark_first n C = None.
Proof.
  induction 1 as [|t C Ht _ IH]; [reflexivity|]. cbn [mark_first].
  rewrite (proj2 (Z.eqb_neq _ _) Ht), IH. reflexivity.
Qed.

Lemma mark_first_split (n : Z) (C1 C2 : list task) (t : task) :
  Forall (fun t => id t <> n) C1 -> id t = n ->
  mark_first n (C1 ++ t :: C2) = Some (C1 ++ mark t :: C2).
Proof.
  intros H1 Ht. induction H1 as [|u C1 Hu _ IH]; cbn [app mark_first].
  - rewrite Ht, Z.eqb_refl. reflexivity.
  - rewrite (proj2 (Z.eqb_neq _ _) Hu), IH. reflexivity.
Qed.

Lemma upgraded_refl (t : task) : upgraded t t.
Proof. repeat split; auto. Qed.

Lemma Forall2_upgraded_refl (C : list task) : Forall2 upgraded C C.
Proof. induction C; constructor; [apply upgraded_refl | assumption]. Qed.

Lemma mark_first_upgraded (n : Z) (C : list task) : forall C',
  mark_first n C = Some C' -> Forall2 upgraded C C'.
Proof.
  induction C as [|t C IH]; intros C' H; [discriminate|]. cbn [mark_first] in H.
  destruct (id t =? n).
  - injection H as <-. constructor; [|apply Forall2_upgraded_refl].
    repeat split; reflexivity.
  - destruct (mark_first n C) as [r'|] eqn:E; [|discriminate]. injection H as <-.
    constructor; [apply upgraded_refl | apply IH; reflexivity].
Qed.

Lemma mark_first_forall (P : task -> Prop) (n : Z) (C : list task) :
  (forall t, P t -> P (mark t)) -> Forall P C ->
  forall C', mark_first n C = Some C' -> Forall P C'.
Proof.
  intros HP. induction 1 as [|t C Ht HC IH]; intros C' H; [discriminate|].
  cbn [mark_first] in H. destruct (id t =? n).
  - injection H as <-. constructor; [apply HP|]; assumption.
  - destruct (mark_first n C) as [r'|]; [|discriminate]. injection H as <-.
    constructor; [assumption | apply IH; reflexivity].
Qed.

Lemma sublist_filter (f : task -> bool) (C : list task) : sublist C (filter f C).
Proof.
  induction C as [|t C IH]; [constructor|]. cbn [filter].
  destruct (f t); constructor; exact IH.
Qed.

Lemma Forall_filter_keep {A} (P : A -> Prop) (f : A -> bool) (l : list A) :
  Forall P l -> Forall P (filter f l).
Proof.
  induction 1 as [|x l Hx _ IH]; [constructor|]. cbn [filter].
  destruct (f x); [constructor|]; assumption.
Qed.

(** A joined pair is outside the surrogate range. *)
Lemma join_surrogates_range (h l : Z) : 65536 <= join_surrogates h l <= 1114111.
Proof.
  unfold join_surrogates.
  change 1023 with (Z.ones 10). rewrite !Z.land_ones by lia.
  pose proof (Z.mod_pos_bound h (2 ^ 10)) as Bh.
  pose proof (Z.mod_pos_bound l (2 ^ 10)) as Bl.
  rewrite lor_shiftl_small by lia. change (2 ^ 10) with 1024 in *. lia.
Qed.

Lemma join_surrogates_plain (h l : Z) :
  is_high (join_surrogates h l) = false /\ is_low (join_surrogates h l) = false.
Proof.
  pose proof (join_surrogates_range h l) as R. unfold is_high, is_low.
  rewrite (proj2 (Z.leb_gt (join_surrogates h l) 56319)) by lia.
  rewrite (proj2 (Z.leb_gt (join_surrogates h l) 57343)) by lia.
  rewrite !andb_false_r. split; reflexivity.
Qed.

Lemma join_pairs_cons (x : Z) (r : pystr) :
  join_pairs (x :: r) = x :: join_pairs r \/
  exists l r', r = l :: r' /\ join_pairs (x :: r) = join_surrogates x l :: join_pairs r'.
Proof.
  destruct r as [|l r']; [left; reflexivity|].
  change (join_pairs (x :: l :: r')) with
    (if is_high x && is_low l then join_surrogates x l :: join_pairs r'
     else x :: join_pairs (l :: r')).
  destruct (is_high x && is_low l); [right; exists l, r'; split; reflexivity | left; reflexivity].
Qed.

Lemma join_pairs_n (n : nat) : forall s, (List.length s <= n)%nat ->
  has_pair (join_pairs s) = false /\ (Forall valid_cp s -> Forall valid_cp (join_pairs s)) /\
  (forall y t, join_pairs s = y :: t ->
     (exists s', s = y :: s') \/ (is_high y = false /\ is_low y = false)).
Proof.
  induction n as [|n IH]; intros s Hlen.
  { destruct s; [|cbn in Hlen; lia]. repeat split; [intros H; exact H|]. discriminate. }
  destruct s as [|h [|l r]].
  - repeat split; [intros H; exact H|]. discriminate.
  - repeat split; [intros H; exact H|]. intros y t E. injection E as <- _. left; eexists; reflexivity.
  - cbn [List.length] in Hlen.
    change (join_pairs (h :: l :: r)) with
      (if is_high h && is_low l then join_surrogates h l :: join_pairs r
       else h :: join_pairs (l :: r)).
    destruct (is_high h && is_low l) eqn:Hp.
    + destruct (IH r ltac:(lia)) as [N [V _]].
      destruct (join_surrogates_plain h l) as [Jh Jl]. repeat split.
      * destruct (join_pairs r) as [|y t]; [reflexivity|].
        cbn [has_pair]. rewrite Jh. exact N.
      * intros Hv. inversion Hv as [|? ? _ Hv']; inversion Hv' as [|? ? _ Hv'']; subst.
        constructor; [pose proof (join_surrogates_range h l); unfold valid_cp; lia|].
        apply V; assumption.
      * intros y t E. injection E as <- _. right. split; assumption.
    + destruct (IH (l :: r) ltac:(cbn [List.length]; lia)) as [N [V H]]. repeat split.
      * destruct (join_pairs (l :: r)) as [|y t] eqn:E; [reflexivity|].
        change (has_pair (h :: y :: t)) with ((is_high h && is_low y) || has_pair (y :: t)).
        rewrite N, orb_false_r.
        destruct (H y t eq_refl) as [[s' Es'] | [_ Ly]].
        -- injection Es' as <- _. exact Hp.
        -- rewrite Ly. apply andb_false_r.
      * intros Hv. inversion Hv as [|? ? Hh Hv']; subst. constructor; [exact Hh|].
        apply V; assumption.
      * intros y t E. injection E as <- _. left; eexists; reflexivity.
Qed.

Lemma join_pairs_idem (s : pystr) : join_pairs (join_pairs s) = join_pairs s.
Proof. apply join_pairs_no_pair. apply (join_pairs_n (List.length s)). lia. Qed.

Lemma join_pairs_valid (s : pystr) : Forall valid_cp s -> Forall valid_cp (join_pairs s).
Proof. apply (join_pairs_n (List.length s)). lia. Qed.

Lemma normalize_task_idem (t : task) : normalize_task (normalize_task t) = normalize_task t.
Proof. unfold normalize_task; cbn. rewrite !join_pairs_idem. reflexivity. Qed.

Lemma normalize_task_valid (t : task) : task_valid t -> task_valid (normalize_task t).
Proof. intros [Hd Hp]. split; apply join_pairs_valid; assumption. Qed.

Lemma task_json_inj (t t' : task) : task_json t = task_json t' -> t = t'.
Proof.
  destruct t as [i d p c], t' as [i' d' p' c']. unfold task_json. cbn.
  intros E. injection E as -> -> -> ->. reflexivity.
Qed.

Lemma collection_json_inj (C C' : list task) : collection_json C = collection_json C' -> C = C'.
Proof.
  unfold collection_json. intros E. injection E as E. revert C' E.
  induction C as [|t C IH]; intros [|t' C'] E; try discriminate; [reflexivity|].
  cbn [map] in E. pose proof (f_equal (hd JNull) E) as E1. pose proof (f_equal (@tl _) E) as E2.
  cbn in E1, E2. rewrite (task_json_inj _ _ E1), (IH _ E2). reflexivity.
Qed.

Lemma holds_read (w : world) (C : list task) :
  store_holds w C -> fst (read_tasks w) = Ok (collection_json (map normalize_task C)).
Proof.
  intros [Hv [E | [E ->]]]; rewrite read_tasks_eq; cbn [fst]; rewrite E.
  - rewrite loads_dumps_collection by exact Hv. reflexivity.
  - reflexivity.
Qed.

Lemma map_normalize_idem (C : list task) :
  map normalize_task (map normalize_task C) = map normalize_task C.
Proof. rewrite map_map. apply map_ext. apply normalize_task_idem. Qed.

Lemma normalized_mark_first (n : Z) (C : list task) : forall C',
  map normalize_task C = C -> mark_first n C = Some C' -> map normalize_task C' = C'.
Proof.
  induction C as [|t C IH]; intros C' HN H; [discriminate|].
  cbn [map] in HN. injection HN as Ht HC. cbn [mark_first] in H.
  destruct (id t =? n).
  - injection H as <-. cbn [map]. rewrite HC.
    change (normalize_task (mark t)) with (mark (normalize_task t)). rewrite Ht. reflexivity.
  - destruct (mark_first n C) as [r'|]; [|discriminate]. injection H as <-.
    cbn [map]. rewrite Ht, (IH r' HC eq_refl). reflexivity.
Qed.

Lemma normalized_filter (f : task -> bool) (C : list task) :
  map normalize_task C = C -> map normalize_task (filter f C) = filter f C.
Proof.
  induction C as [|t C IH]; intros HN; [reflexivity|].
  cbn [map] in HN. injection HN as Ht HC. cbn [filter].
  destruct (f t); cbn [map]; rewrite ?Ht, IH by exact HC; reflexivity.
Qed.

Lemma holds_written (w : world) (C : list task) :
  Forall task_valid C ->
  store_holds (snd (write_tasks (collection_json C) w)) C.
Proof.
  intros Hv. split; [exact Hv|]. left. rewrite write_tasks_eq. unfold stored. cbn.
  apply dict_get_set_same.
Qed.

Lemma holds_after_read (w : world) (C : list task) :
  store_holds w C -> store_holds (after_read w) C.
Proof. intros H. exact H. Qed.

Lemma new_task_json (z : Z) (d p : pystr) :
  new_task z d p = task_json (mkTask z d p false).
Proof. reflexivity. Qed.

Lemma holds_step (w : world) (C : list task) (o : op) :
  store_holds w C -> op_valid o ->
  exists C1, store_holds (snd (run_op o w)) C1 /\
             op_effect o (map normalize_task C) (map normalize_task C1).
Proof.
  intros Hh Ho. pose proof (holds_read w C Hh) as Hr.
  pose proof Hh as [Hv _].
  assert (Vn : Forall task_valid (map normalize_task C)).
  { apply Forall_map. eapply Forall_impl; [apply normalize_task_valid | exact Hv]. }
  destruct o as [d p| |n|n]; cbn [run_op op_effect].
  - (* add *)
    set (Cn := map normalize_task C) in *.
    set (x := mkTask (Z.of_nat (List.length (map task_json Cn)) + 1) d p false).
    exists (Cn ++ [x]). unfold collection_json in Hr.
    rewrite (add_task_json w _ d p Hr). cbn [snd].
    rewrite new_task_json. fold x.
    replace (map task_json Cn ++ [task_json x]) with (map task_json (Cn ++ [x]))
      by (rewrite map_app; reflexivity).
    split.
    + apply holds_written. apply Forall_app. split; [exact Vn|].
      constructor; [exact Ho | constructor].
    + exists (normalize_task x). split; [|reflexivity].
      rewrite map_app. unfold Cn. rewrite map_normalize_idem. reflexivity.
  - (* list *)
    exists C. split; [|reflexivity]. rewrite list_tasks_world. exact Hh.
  - (* complete *)
    rewrite (complete_task_collection w _ n Hr).
    destruct (mark_first n (map normalize_task C)) as [C'|] eqn:E; cbn [snd].
    + exists C'. split.
      * apply holds_written.
        exact (mark_first_forall task_valid n _ (fun t H => H) Vn C' E).
      * rewrite (normalized_mark_first n _ C' (map_normalize_idem C) E).
        exact (mark_first_upgraded n _ C' E).
    + exists C. split; [exact Hh | apply Forall2_upgraded_refl].
  - (* delete *)
    rewrite (delete_task_collection w _ n Hr). cbn [snd].
    exists (filter (keeps_id n) (map normalize_task C)). split.
    + apply holds_written. apply Forall_filter_keep. exact Vn.
    + rewrite normalized_filter by apply map_normalize_idem. apply sublist_filter.
Qed.

Lemma reachable_holds (w : world) : reachable w -> exists C, store_holds w C.
Proof.
  induction 1 as [|w o _ [C Hh] Ho].
  - exists []. split; [constructor | right; split; reflexivity].
  - destruct (holds_step w C o Hh Ho) as [C1 [H1 _]]. exists C1. exact H1.
Qed.

Lemma normalize_no_pairs (C : list task) : Forall no_pairs C -> map normalize_task C = C.
Proof.
  induction 1 as [|[i d p c] C [Hd Hp] _ IH]; [reflexivity|].
  cbn [map]. rewrite IH. unfold normalize_task. cbn in Hd, Hp |- *.
  rewrite (join_pairs_no_pair _ Hd), (join_pairs_no_pair _ Hp). reflexivity.
Qed.

Lemma filter_keeps_all (n : Z) (C : list task) :
  Forall (fun t => id t <> n) C -> filter (keeps_id n) C = C.
Proof.
  induction 1 as [|t C Ht _ IH]; [reflexivity|]. cbn [filter]. unfold keeps_id at 1.
  rewrite (proj2 (Z.eqb_neq _ _) Ht), IH. reflexivity.
Qed.

Lemma pystr_eqb_neq (a b : pystr) : a <> b -> pystr_eqb a b = false.
Proof.
  intros H. destruct (pystr_eqb a b) eqn:E; [|reflexivity].
  exfalso. exact (H (pystr_eqb_eq a b E)).
Qed.

End StoreFacts.

(** * The claims *)
Module Claims.
Import Simple StoreFacts CollectionRoundTrip.

(** C1 (corrected).  The networked [_read_tasks] gives the empty list when
    the tool call raises, when the result has no content items, when its
    first item has no text, and when the text does not decode; text that
    decodes is returned as decoded, whatever JSON value it is.  The simple
    [_read_tasks] returns whatever the stored content decodes to and raises
    [JSONDecodeError] when it does not decode. *)
Theorem C1_load_outcomes (w : world) (content : pystr) (items : list Net.content_item)
  (e : exn) :
  stored w = Some content ->
  Net.read_tasks (Raise e) = JArr [] /\
  Net.read_tasks (Ok []) = JArr [] /\
  Net.read_tasks (Ok (Net.OtherContent :: items)) = JArr [] /\
  Net.read_tasks (Ok (Net.TextContent content :: items))
    = match loads content with Some v => v | None => JArr [] end /\
  fst (read_tasks w)
    = match loads content with Some v => Ok v | None => Raise JSONDecodeError end.
Proof.
  intros Hs. repeat split. rewrite read_tasks_eq, Hs. reflexivity.
Qed.

(** A stored empty list is loaded as the empty collection. *)
Lemma C1_witness :
  stored (mkWorld [(tasks_file, ps "[]")] []) = Some (ps "[]") /\
  fst (read_tasks (mkWorld [(tasks_file, ps "[]")] [])) = Ok (JArr []).
Proof.
  assert (H : stored (mkWorld [(tasks_file, ps "[]")] []) = Some (ps "[]")) by reflexivity.
  split; [exact H|].
  destruct (C1_load_outcomes _ _ [] KeyError H) as [_ [_ [_ [_ E]]]].
  rewrite E. vm_compute. reflexivity.
Defined.

(** Content [7] is a JSON number: both variants load it as the number 7,
    not as the empty collection; and the simple variant raises on content
    that is not JSON. *)
Lemma C1_counterexample :
  Net.read_tasks (Ok [Net.TextContent (ps "7")]) = JInt 7 /\
  fst (read_tasks (mkWorld [(tasks_file, ps "7")] [])) = Ok (JInt 7) /\
  fst (read_tasks (mkWorld [(tasks_file, ps "oops")] [])) = Raise JSONDecodeError.
Proof. vm_compute. repeat split. Qed.

(** C2.  Whatever list [l] was loaded, [add_task] appends a task whose id is
    [len(l) + 1] and writes the list back.  After add, add, delete(1) (and
    with complete(1) and list in between, as in the spec's scenario) the
    collection is the single task 2 Review/low, and a further add of [X]
    gives it id 2 as well. *)
Theorem C2_add_assigns_length_plus_one (w : world) (l : list json) (d p : pystr) :
  fst (read_tasks w) = Ok (JArr l) ->
  fst (add_task d p w) = Ok (Added d p) /\
  filesystem (snd (add_task d p w))
    = dict_set (filesystem w) tasks_file
        (dumps (JArr (l ++ [new_task (Z.of_nat (List.length l) + 1) d p]))) /\
  (let w1 := snd ((_ <- add_task (ps "Write spec") (ps "high") ;;
                   _ <- add_task (ps "Review") (ps "low") ;;
                   delete_task 1) empty_world) in
   let w2 := snd ((_ <- add_task (ps "Write spec") (ps "high") ;;
                   _ <- add_task (ps "Review") (ps "low") ;;
                   _ <- complete_task 1 ;;
                   _ <- list_tasks ;;
                   delete_task 1) empty_world) in
   fst (read_tasks w1) = Ok (collection_json [mkTask 2 (ps "Review") (ps "low") false]) /\
   fst (read_tasks w2) = Ok (collection_json [mkTask 2 (ps "Review") (ps "low") false]) /\
   fst (read_tasks (snd (add_task (ps "X") (ps "medium") w2)))
     = Ok (collection_json [mkTask 2 (ps "Review") (ps "low") false;
                            mkTask 2 (ps "X") (ps "medium") false])).
Proof.
  intros H. rewrite (add_task_json w l d p H). split; [reflexivity|]. split.
  - rewrite write_tasks_eq. reflexivity.
  - vm_compute. repeat split.
Qed.

(** Adding to the empty store. *)
Lemma C2_witness :
  fst (read_tasks empty_world) = Ok (JArr []) /\
  fst (add_task (ps "a") (ps "low") empty_world) = Ok (Added (ps "a") (ps "low")).
Proof.
  assert (H : fst (read_tasks empty_world) = Ok (JArr [])) by (vm_compute; reflexivity).
  split; [exact H|].
  exact (proj1 (C2_add_assigns_length_plus_one empty_world [] (ps "a") (ps "low") H)).
Defined.

(** C3 (corrected).  Saving a collection of Python strings and loading it
    back gives the collection with every high surrogate that is directly
    followed by a low one joined with it into one code point; a collection
    with no such pair comes back unchanged. *)
Theorem C3_save_then_load (C : list task) (w : world) :
  Forall task_valid C ->
  fst (read_tasks (snd (save C w))) = Ok (collection_json (map normalize_task C)) /\
  (Forall no_pairs C -> fst (read_tasks (snd (save C w))) = Ok (collection_json C)).
Proof.
  intros Hv. pose proof (holds_read _ _ (holds_written w C Hv)) as H.
  unfold save. split; [exact H|]. intros Hn. rewrite H, normalize_no_pairs by exact Hn.
  reflexivity.
Qed.

(** A one-task collection round-trips. *)
Lemma C3_witness :
  Forall task_valid [mkTask 1 (ps "a") (ps "low") false] /\
  fst (read_tasks (snd (save [mkTask 1 (ps "a") (ps "low") false] empty_world)))
    = Ok (collection_json [mkTask 1 (ps "a") (ps "low") false]).
Proof.
  assert (Hv : Forall task_valid [mkTask 1 (ps "a") (ps "low") false]).
  { repeat constructor; cbv; discriminate. }
  split; [exact Hv|].
  apply (proj2 (C3_save_then_load _ empty_world Hv)).
  repeat constructor.
Defined.

(** The description made of the surrogates D83D and DE00 is written as two
    escapes that the decoder joins: it loads as the single code point
    1F600. *)
Lemma C3_counterexample :
  fst (read_tasks (snd (save [mkTask 1 [55357; 56832] (ps "low") false] empty_world)))
    = Ok (collection_json [mkTask 1 [128512] (ps "low") false]) /\
  fst (read_tasks (snd (save [mkTask 1 [55357; 56832] (ps "low") false] empty_world)))
    <> Ok (collection_json [mkTask 1 [55357; 56832] (ps "low") false]).
Proof. vm_compute. split; [reflexivity | discriminate]. Qed.

(** C4.  When no task has the id, [complete_task] reports it not found
    without raising, and the world only logs the read call: nothing is
    written.  Otherwise the first task with the id is marked completed and
    the collection is saved. *)
Theorem C4_complete_first_match (w : world) (C : list task) (n : Z) :
  fst (read_tasks w) = Ok (collection_json C) ->
  (Forall (fun t => id t <> n) C ->
   complete_task n w = (Ok (NotFound n), after_read w)) /\
  (forall C1 t C2, C = C1 ++ t :: C2 -> Forall (fun t => id t <> n) C1 -> id t = n ->
   complete_task n w = (Ok (Completed n), snd (save (C1 ++ mark t :: C2) (after_read w)))).
Proof.
  intros H. rewrite (complete_task_collection w C n H). split.
  - intros Hn. rewrite mark_first_none by exact Hn. reflexivity.
  - intros C1 t C2 -> H1 Ht. rewrite mark_first_split by assumption. reflexivity.
Qed.

(** Completing an id that is absent from a one-task store. *)
Lemma C4_witness :
  fst (read_tasks (mkWorld [(tasks_file, dumps (collection_json
         [mkTask 1 (ps "a") (ps "low") true]))] []))
    = Ok (collection_json [mkTask 1 (ps "a") (ps "low") true]) /\
  complete_task 2 (mkWorld [(tasks_file, dumps (collection_json
         [mkTask 1 (ps "a") (ps "low") true]))] [])
    = (Ok (NotFound 2), after_read (mkWorld [(tasks_file, dumps (collection_json
         [mkTask 1 (ps "a") (ps "low") true]))] [])).
Proof.
  assert (H : fst (read_tasks (mkWorld [(tasks_file, dumps (collection_json
         [mkTask 1 (ps "a") (ps "low") true]))] []))
    = Ok (collection_json [mkTask 1 (ps "a") (ps "low") true])) by (vm_compute; reflexivity).
  split; [exact H|].
  apply (proj1 (C4_complete_first_match _ _ 2 H)).
  repeat constructor. cbv. discriminate.
Defined.

(** C5.  When no task has the id, [delete_task] reports the deletion
    without raising, still calls [write_file] with the loaded collection
    unchanged, and leaves the files as they were when they held that
    collection. *)
Theorem C5_delete_absent_id (w : world) (C : list task) (n : Z) :
  fst (read_tasks w) = Ok (collection_json C) ->
  Forall (fun t => id t <> n) C ->
  delete_task n w =
    (Ok (Deleted n),
     mkWorld (dict_set (filesystem w) tasks_file (dumps (collection_json C)))
             (calls w ++ [read_call; write_call (dumps (collection_json C))])) /\
  (stored w = Some (dumps (collection_json C)) ->
   filesystem (snd (delete_task n w)) = filesystem w).
Proof.
  intros H Hn.
  rewrite (delete_task_collection w C n H), (filter_keeps_all n C Hn), write_tasks_eq. cbn [snd filesystem calls after_read].
  rewrite <- app_assoc. split; [reflexivity|].
  intros Hs. cbn. apply dict_set_get_same. exact Hs.
Qed.

(** Deleting an absent id from a one-task store. *)
Lemma C5_witness :
  fst (read_tasks (mkWorld [(tasks_file, dumps (collection_json
         [mkTask 1 (ps "a") (ps "low") false]))] []))
    = Ok (collection_json [mkTask 1 (ps "a") (ps "low") false]) /\
  Forall (fun t => id t <> 7) [mkTask 1 (ps "a") (ps "low") false] /\
  filesystem (snd (delete_task 7 (mkWorld [(tasks_file, dumps (collection_json
         [mkTask 1 (ps "a") (ps "low") false]))] [])))
    = [(tasks_file, dumps (collection_json [mkTask 1 (ps "a") (ps "low") false]))].
Proof.
  assert (H : fst (read_tasks (mkWorld [(tasks_file, dumps (collection_json
         [mkTask 1 (ps "a") (ps "low") false]))] []))
    = Ok (collection_json [mkTask 1 (ps "a") (ps "low") false])) by (vm_compute; reflexivity).
  assert (Hn : Forall (fun t => id t <> 7) [mkTask 1 (ps "a") (ps "low") false])
    by (repeat constructor; cbv; discriminate).
  split; [exact H|]. split; [exact Hn|].
  apply (proj2 (C5_delete_absent_id _ _ 7 H Hn)). reflexivity.
Defined.

(** C6.  [read_file] of a path that has no file returns the content [[]]
    (not an error) and changes no file, so loading the tasks path of such a
    store gives the empty list. *)
Theorem C6_absent_path_reads_empty (w : world) (args : dict pystr) (path : pystr) :
  dict_get args (ps "path") = Some path ->
  dict_get (filesystem w) path = None ->
  fst (call_tool (ps "read_file") args w) = Ok (RContent (ps "[]")) /\
  filesystem (snd (call_tool (ps "read_file") args w)) = filesystem w /\
  (path = tasks_file -> fst (read_tasks w) = Ok (JArr [])).
Proof.
  intros Hp Ha. unfold call_tool. cbv beta zeta.
  change (pystr_eqb (ps "read_file") (ps "read_file")) with true. cbv iota.
  rewrite Hp. cbn [filesystem]. rewrite Ha. split; [reflexivity|]. split; [reflexivity|].
  intros ->. rewrite read_tasks_eq. unfold stored. rewrite Ha. reflexivity.
Qed.

(** The fresh store loads as the empty list. *)
Lemma C6_witness :
  fst (read_tasks empty_world) = Ok (JArr []).
Proof.
  apply (proj2 (proj2 (C6_absent_path_reads_empty empty_world [(ps "path", tasks_file)]
           tasks_file eq_refl eq_refl))).
  reflexivity.
Defined.

(** C7.  In every world reached by add, list, complete and delete calls, the
    tasks file loads as a collection, and the next operation only appends
    an incomplete task (add), keeps the collection (list), keeps every task
    with a completion flag that stays set once set (complete), or keeps an
    ordered selection of the tasks unchanged (delete). *)
Theorem C7_completion_monotone (w : world) (o : op) :
  reachable w -> op_valid o ->
  exists C C',
    fst (read_tasks w) = Ok (collection_json C) /\
    fst (read_tasks (snd (run_op o w))) = Ok (collection_json C') /\
    op_effect o C C'.
Proof.
  intros Hr Ho. destruct (reachable_holds w Hr) as [C0 H0].
  destruct (holds_step w C0 o H0 Ho) as [C1 [H1 E]].
  exists (map normalize_task C0), (map normalize_task C1).
  split; [exact (holds_read w C0 H0)|]. split; [exact (holds_read _ C1 H1)|]. exact E.
Qed.

(** Completing task 1 after one add. *)
Lemma C7_witness :
  reachable (snd (run_op (OpAdd (ps "a") (ps "low")) empty_world)) /\
  exists C C',
    fst (read_tasks (snd (run_op (OpAdd (ps "a") (ps "low")) empty_world)))
      = Ok (collection_json C) /\
    fst (read_tasks (snd (run_op (OpComplete 1)
           (snd (run_op (OpAdd (ps "a") (ps "low")) empty_world)))))
      = Ok (collection_json C') /\
    Forall2 upgraded C C'.
Proof.
  assert (Hr : reachable (snd (run_op (OpAdd (ps "a") (ps "low")) empty_world))).
  { apply reach_step; [exact reach_init|]. cbn. split; repeat constructor; cbv; discriminate. }
  split; [exact Hr|].
  exact (C7_completion_monotone _ (OpComplete 1) Hr I).
Defined.

(** C8.  A tool name other than [read_file], [write_file] and
    [list_directory] gives a result with an error field, raises nothing and
    changes no file. *)
Theorem C8_unknown_tool (name : pystr) (args : dict pystr) (w : world) :
  name <> ps "read_file" -> name <> ps "write_file" -> name <> ps "list_directory" ->
  call_tool name args w =
    (Ok (RError (ps "Unknown tool: " ++ name)),
     mkWorld (filesystem w) (calls w ++ [(name, args)])).
Proof.
  intros H1 H2 H3. unfold call_tool. cbv beta zeta.
  rewrite (pystr_eqb_neq _ _ H1), (pystr_eqb_neq _ _ H2), (pystr_eqb_neq _ _ H3).
  reflexivity.
Qed.

(** An unknown tool on the fresh store. *)
Lemma C8_witness :
  call_tool (ps "delete_file") [] empty_world =
    (Ok (RError (ps "Unknown tool: delete_file")), mkWorld [] [(ps "delete_file", [])]).
Proof.
  apply (C8_unknown_tool (ps "delete_file") [] empty_world); discriminate.
Defined.

(** C9.  [delete_task n] saves the tasks whose id differs from [n], in their
    order: every task with id [n] is removed, every other one kept. *)
Theorem C9_delete_keeps_other_ids (w : world) (C : list task) (n : Z) :
  fst (read_tasks w) = Ok (collection_json C) ->
  delete_task n w =
    (Ok (Deleted n), snd (save (filter (fun t => negb (id t =? n)) C) (after_read w))) /\
  sublist C (filter (fun t => negb (id t =? n)) C) /\
  (forall t, In t (filter (fun t => negb (id t =? n)) C) <-> In t C /\ id t <> n).
Proof.
  intros H. split; [exact (delete_task_collection w C n H)|].
  split; [apply (sublist_filter (keeps_id n))|].
  intros t. rewrite filter_In, negb_true_iff, Z.eqb_neq. reflexivity.
Qed.

(** Deleting id 1 removes both tasks with that id. *)
Lemma C9_witness :
  fst (read_tasks (mkWorld [(tasks_file, dumps (collection_json
         [mkTask 1 (ps "a") (ps "low") false; mkTask 1 (ps "b") (ps "low") false;
          mkTask 2 (ps "c") (ps "high") true]))] []))
    = Ok (collection_json [mkTask 1 (ps "a") (ps "low") false;
                           mkTask 1 (ps "b") (ps "low") false;
                           mkTask 2 (ps "c") (ps "high") true]) /\
  filter (fun t => negb (id t =? 1))
    [mkTask 1 (ps "a") (ps "low") false; mkTask 1 (ps "b") (ps "low") false;
     mkTask 2 (ps "c") (ps "high") true]
  = [mkTask 2 (ps "c") (ps "high") true] /\
  fst (delete_task 1 (mkWorld [(tasks_file, dumps (collection_json
         [mkTask 1 (ps "a") (ps "low") false; mkTask 1 (ps "b") (ps "low") false;
          mkTask 2 (ps "c") (ps "high") true]))] [])) = Ok (Deleted 1).
Proof.
  assert (H : fst (read_tasks (mkWorld [(tasks_file, dumps (collection_json
         [mkTask 1 (ps "a") (ps "low") false; mkTask 1 (ps "b") (ps "low") false;
          mkTask 2 (ps "c") (ps "high") true]))] []))
    = Ok (collection_json [mkTask 1 (ps "a") (ps "low") false;
                           mkTask 1 (ps "b") (ps "low") false;
                           mkTask 2 (ps "c") (ps "high") true])) by (vm_compute; reflexivity).
  split; [exact H|]. split; [reflexivity|].
  rewrite (proj1 (C9_delete_keeps_other_ids _ _ 1 H)). reflexivity.
Defined.

(** C10.  [read_file] without a [path] argument, and [write_file] without a
    [path] or a [content] argument, raise [KeyError] rather than returning
    an error result. *)
Theorem C10_missing_argument_raises (w : world) (args : dict pystr) :
  (dict_get args (ps "path") = None ->
   fst (call_tool (ps "read_file") args w) = Raise KeyError) /\
  (dict_get args (ps "path") = None \/ dict_get args (ps "content") = None ->
   fst (call_tool (ps "write_file") args w) = Raise KeyError).
Proof.
  split.
  - intros Hp. unfold call_tool. cbv beta zeta.
    change (pystr_eqb (ps "read_file") (ps "read_file")) with true. cbv iota.
    rewrite Hp. reflexivity.
  - intros Hm. unfold call_tool. cbv beta zeta.
    change (pystr_eqb (ps "write_file") (ps "read_file")) with false.
    change (pystr_eqb (ps "write_file") (ps "write_file")) with true. cbv iota.
    destruct Hm as [Hp | Hc]; [rewrite Hp; reflexivity|].
    destruct (dict_get args (ps "path")); [rewrite Hc|]; reflexivity.
Qed.

End Claims.

(** ** Further properties of the server and the task managers *)
Module Extras.
Import Simple StoreFacts CollectionRoundTrip Expected.

Lemma dict_get_set_other {A} (d : dict A) (k k' : pystr) (v : A) :
  pystr_eqb k' k = false -> dict_get (dict_set d k v) k' = dict_get d k'.
Proof.
  intros H. induction d as [|[k0 v0] d IH]; simpl.
  - rewrite H. reflexivity.
  - destruct (pystr_eqb k k0) eqn:E; simpl.
    + apply pystr_eqb_eq in E. subst k0. rewrite H. reflexivity.
    + rewrite IH. reflexivity.
Qed.

Lemma keys_dict_set {A} (d : dict A) (k : pystr) (v : A) :
  map fst (dict_set d k v) =
  if existsb (pystr_eqb k) (map fst d) then map fst d else map fst d ++ [k].
Proof.
  induction d as [|[k0 v0] d IH]; simpl; [reflexivity|].
  destruct (pystr_eqb k k0); simpl; [reflexivity|].
  rewrite IH. destruct (existsb (pystr_eqb k) (map fst d)); reflexivity.
Qed.


Ltac tool_branch :=
  unfold call_tool; cbv beta zeta;
  repeat match goal with
  | |- context [pystr_eqb (ps ?a) (ps ?b)] =>
      let v := eval vm_compute in (pystr_eqb (ps a) (ps b)) in
      change (pystr_eqb (ps a) (ps b)) with v
  end; cbv iota.

(** X1.  After [write_file] stored [content] at [path], [read_file] of
    that path returns [content]; [read_file] of any other path returns what
    it returned before the write. *)
Theorem X1_write_then_read (w : world) (args : dict pystr) (p c q : pystr) :
  dict_get args (ps "path") = Some p -> dict_get args (ps "content") = Some c ->
  fst (call_tool (ps "read_file") [(ps "path", q)] (snd (call_tool (ps "write_file") args w))) =
  if pystr_eqb q p then Ok (RContent c)
  else fst (call_tool (ps "read_file") [(ps "path", q)] w).
Proof.
  intros Hp Hc. tool_branch. rewrite Hp, Hc. cbn [snd fst filesystem dict_get].
  change (pystr_eqb (ps "path") (ps "path")) with true. cbv iota.
  destruct (pystr_eqb q p) eqn:E.
  - apply pystr_eqb_eq in E. subst q. rewrite dict_get_set_same. reflexivity.
  - rewrite dict_get_set_other by exact E. destruct (dict_get (filesystem w) q); reflexivity.
Qed.

(** X2.  After [write_file] at [path], [list_directory] lists the paths
    as before, with [path] added at the end if it was not stored yet. *)
Theorem X2_write_lists_path_once (w : world) (args a : dict pystr) (p c : pystr) :
  dict_get args (ps "path") = Some p -> dict_get args (ps "content") = Some c ->
  fst (call_tool (ps "list_directory") a (snd (call_tool (ps "write_file") args w))) =
  Ok (RFiles (if existsb (pystr_eqb p) (map fst (filesystem w)) then map fst (filesystem w)
              else map fst (filesystem w) ++ [p])).
Proof.
  intros Hp Hc. tool_branch. rewrite Hp, Hc. cbn [snd fst filesystem].
  rewrite keys_dict_set. reflexivity.
Qed.

Lemma files_unchanged (w : world) (name : pystr) (args : dict pystr) :
  name <> ps "write_file" -> filesystem (snd (call_tool name args w)) = filesystem w.
Proof.
  intros H. unfold call_tool. cbv beta zeta.
  rewrite (pystr_eqb_neq name (ps "write_file") H).
  destruct (pystr_eqb name (ps "read_file")).
  - destruct (dict_get args (ps "path")); [destruct dict_get|]; reflexivity.
  - destruct (pystr_eqb name (ps "list_directory")); reflexivity.
Qed.

(** X3.  Every tool other than [write_file] (read, list, unknown) leaves
    the file system unchanged. *)
Theorem X3_only_write_changes_files (w : world) (name : pystr) (args : dict pystr) :
  name <> ps "write_file" -> filesystem (snd (call_tool name args w)) = filesystem w.
Proof. exact (files_unchanged w name args). Qed.



(** X5.  Every tool named by [list_tools] is handled by [call_tool]: it
    never answers with the unknown tool error. *)
Theorem X5_listed_tools_handled (name : pystr) (args : dict pystr) (w : world) (e : pystr) :
  In name (map fst Server.list_tools) -> fst (call_tool name args w) <> Ok (RError e).
Proof.
  cbv [Server.list_tools Server.tools map fst]. intros [<- | [<- | [<- | []]]]; tool_branch.
  - destruct (dict_get args (ps "path")); [destruct dict_get|]; discriminate.
  - destruct (dict_get args (ps "path")); [destruct (dict_get args (ps "content"))|]; discriminate.
  - discriminate.
Qed.

Lemma priority_glyph_str (p : pystr) : priority_glyph (JStr p) = Ok (Expected.glyph_of p).
Proof.
  unfold priority_glyph, Expected.glyph_of.
  destruct (pystr_eqb p (ps "high")); [reflexivity|].
  destruct (pystr_eqb p (ps "medium")); [reflexivity|].
  destruct (pystr_eqb p (ps "low")); reflexivity.
Qed.

Lemma render_task (t : task) : render (task_json t) = Ok (Expected.row_of t).
Proof.
  destruct t as [i d p c]. unfold render.
  change (getitem (task_json (mkTask i d p c)) (ps "completed")) with (Ok (JBool c)).
  change (getitem (task_json (mkTask i d p c)) (ps "priority")) with (Ok (JStr p)).
  change (getitem (task_json (mkTask i d p c)) (ps "id")) with (Ok (JInt i)).
  change (getitem (task_json (mkTask i d p c)) (ps "description")) with (Ok (JStr d)).
  cbn [rbind]. rewrite priority_glyph_str. reflexivity.
Qed.

Lemma render_all_tasks (C : list task) : render_all (map task_json C) = Ok (map Expected.row_of C).
Proof.
  induction C as [|t C IH]; [reflexivity|]. cbn [map render_all].
  rewrite render_task, IH. reflexivity.
Qed.

Lemma list_collection (w : world) (C : list task) :
  fst (read_tasks w) = Ok (collection_json C) ->
  list_tasks w =
  (Ok (match C with [] => NoTasks | _ :: _ => Listed (map Expected.row_of C) end), after_read w).
Proof.
  intros H. unfold list_tasks, bind. rewrite (read_tasks_split w _ H).
  destruct C as [|t C']; [reflexivity|].
  unfold collection_json. change (negb (truthy (JArr (map task_json (t :: C'))))) with false.
  cbv iota. unfold lift. cbn [py_iter]. rewrite render_all_tasks. reflexivity.
Qed.

(** X6.  When the tasks file loads as a collection, [list_tasks] reports
    no tasks for the empty collection, and otherwise one row per task in
    order: its completion flag, id, priority marker (high red, medium
    yellow, low green, any other white) and description.  It writes
    nothing. *)
Theorem X6_list_rows (w : world) (C : list task) :
  fst (read_tasks w) = Ok (collection_json C) ->
  list_tasks w =
  (Ok (match C with [] => NoTasks | _ :: _ => Listed (map Expected.row_of C) end), after_read w).
Proof. exact (list_collection w C). Qed.

(** X7.  When the tasks file loads as a JSON value that is not a list,
    [add_task] raises (AttributeError for an object or a string, TypeError
    otherwise) and writes nothing. *)
Theorem X7_add_non_list (w : world) (v : json) (d p : pystr) :
  fst (read_tasks w) = Ok v -> (forall l, v <> JArr l) ->
  add_task d p w =
  (Raise (match v with JObj _ | JStr _ => AttributeError | _ => TypeError end), after_read w).
Proof.
  intros H Hl. unfold add_task, bind. rewrite (read_tasks_split w _ H).
  destruct v; try reflexivity. exfalso. exact (Hl l eq_refl).
Qed.

(** X8.  When the tasks file loads as a JSON value that is not a list,
    [delete_task] raises TypeError and writes nothing, except for an empty
    object or empty string, which it replaces with an empty list. *)
Theorem X8_delete_non_list (w : world) (v : json) (n : Z) :
  fst (read_tasks w) = Ok v -> (forall l, v <> JArr l) ->
  delete_task n w =
  match v with
  | JObj [] | JStr [] => (Ok (Deleted n), snd (write_tasks (JArr []) (after_read w)))
  | _ => (Raise TypeError, after_read w)
  end.
Proof.
  intros H Hl. unfold delete_task, bind. rewrite (read_tasks_split w _ H).
  destruct v as [| | | | |[|c s]|l|[|[k x] kvs]]; try reflexivity.
  exfalso. exact (Hl l eq_refl).
Qed.

(** X9.  When the tasks file loads as a JSON value that is not a list,
    [complete_task] writes nothing: it reports the task not found for an
    empty object or empty string, and raises TypeError otherwise. *)
Theorem X9_complete_non_list (w : world) (v : json) (n : Z) :
  fst (read_tasks w) = Ok v -> (forall l, v <> JArr l) ->
  complete_task n w =
  (match v with JObj [] | JStr [] => Ok (NotFound n) | _ => Raise TypeError end, after_read w).
Proof.
  intros H Hl. unfold complete_task, bind. rewrite (read_tasks_split w _ H).
  destruct v as [| | | | |[|c s]|l|[|[k x] kvs]]; try reflexivity.
  exfalso. exact (Hl l eq_refl).
Qed.

Lemma mark_first_again (n : Z) (C : list task) : forall C',
  mark_first n C = Some C' -> mark_first n C' = Some C'.
Proof.
  induction C as [|t C IH]; intros C' H; [discriminate|]. cbn [mark_first] in H.
  destruct (id t =? n) eqn:E.
  - injection H as <-. cbn [mark_first]. change (id (mark t)) with (id t). rewrite E.
    reflexivity.
  - destruct (mark_first n C) as [r|] eqn:Er; [|discriminate]. injection H as <-.
    cbn [mark_first]. rewrite E, (IH r eq_refl). reflexivity.
Qed.

Lemma filter_again {A} (f : A -> bool) (l : list A) : filter f (filter f l) = filter f l.
Proof.
  induction l as [|x l IH]; [reflexivity|]. cbn [filter].
  destruct (f x) eqn:E; cbn [filter]; [rewrite E, IH|]; [reflexivity|exact IH].
Qed.

Lemma dict_set_twice {A} (d : dict A) (k : pystr) (v : A) :
  dict_set (dict_set d k v) k v = dict_set d k v.
Proof. apply dict_set_get_same, dict_get_set_same. Qed.

Lemma write_same_files (w : world) (C : list task) :
  stored w = Some (dumps (collection_json C)) ->
  filesystem (snd (write_tasks (collection_json C) (after_read w))) = filesystem w.
Proof.
  intros H. rewrite write_tasks_eq. cbn [snd filesystem after_read].
  apply dict_set_get_same. exact H.
Qed.

(** X10.  Completing the same id twice leaves the same files as completing
    it once. *)
Theorem X10_complete_twice (w : world) (C : list task) (n : Z) :
  store_holds w C ->
  filesystem (snd (complete_task n (snd (complete_task n w)))) =
  filesystem (snd (complete_task n w)).
Proof.
  intros Hh. pose proof Hh as [Hv _].
  assert (Vn : Forall task_valid (map normalize_task C)).
  { apply Forall_map. eapply Forall_impl; [apply normalize_task_valid | exact Hv]. }
  rewrite (complete_task_collection w _ n (holds_read w C Hh)).
  destruct (mark_first n (map normalize_task C)) as [C'|] eqn:E; cbn [snd].
  - set (w1 := snd (write_tasks (collection_json C') (after_read w))).
    assert (H1 : store_holds w1 C').
    { apply holds_written. exact (mark_first_forall task_valid n _ (fun t H => H) Vn C' E). }
    pose proof (holds_read w1 C' H1) as R1.
    rewrite (normalized_mark_first n _ C' (map_normalize_idem C) E) in R1.
    rewrite (complete_task_collection w1 C' n R1), (mark_first_again n _ C' E). cbn [snd].
    apply write_same_files. unfold w1, stored. rewrite write_tasks_eq. cbn.
    apply dict_get_set_same.
  - rewrite (complete_task_collection (after_read w) _ n
               (holds_read _ C (holds_after_read w C Hh))), E.
    reflexivity.
Qed.

(** X11.  Deleting the same id twice leaves the same files as deleting it
    once. *)
Theorem X11_delete_twice (w : world) (C : list task) (n : Z) :
  store_holds w C ->
  filesystem (snd (delete_task n (snd (delete_task n w)))) =
  filesystem (snd (delete_task n w)).
Proof.
  intros Hh. pose proof Hh as [Hv _].
  assert (Vn : Forall task_valid (map normalize_task C)).
  { apply Forall_map. eapply Forall_impl; [apply normalize_task_valid | exact Hv]. }
  rewrite (delete_task_collection w _ n (holds_read w C Hh)). cbn [snd].
  set (F := filter (keeps_id n) (map normalize_task C)).
  set (w1 := snd (write_tasks (collection_json F) (after_read w))).
  assert (H1 : store_holds w1 F) by (apply holds_written, Forall_filter_keep, Vn).
  pose proof (holds_read w1 F H1) as R1. unfold F in R1.
  rewrite (normalized_filter (keeps_id n) _ (map_normalize_idem C)) in R1. fold F in R1.
  rewrite (delete_task_collection w1 F n R1). cbn [snd]. unfold F at 1.
  rewrite filter_again. fold F.
  apply write_same_files. unfold w1, stored. rewrite write_tasks_eq. cbn.
  apply dict_get_set_same.
Qed.

Lemma holds_add (w : world) (C : list task) (d p : pystr) :
  store_holds w C -> Forall valid_cp d -> Forall valid_cp p ->
  store_holds (snd (add_task d p w))
    (map normalize_task C ++ [mkTask (Z.of_nat (List.length C) + 1) d p false]).
Proof.
  intros Hh Hd Hp. pose proof Hh as [Hv _].
  pose proof (holds_read w C Hh) as Hr. unfold collection_json in Hr.
  rewrite (add_task_json w _ d p Hr). cbn [snd].
  rewrite new_task_json, !length_map.
  replace (map task_json (map normalize_task C) ++
           [task_json (mkTask (Z.of_nat (List.length C) + 1) d p false)])
    with (map task_json (map normalize_task C ++
           [mkTask (Z.of_nat (List.length C) + 1) d p false]))
    by (rewrite map_app; reflexivity).
  apply holds_written. apply Forall_app. split.
  - apply Forall_map. eapply Forall_impl; [apply normalize_task_valid | exact Hv].
  - constructor; [split; assumption | constructor].
Qed.

Lemma adds_hold (l : list (pystr * pystr)) : forall (w : world) (C : list task),
  store_holds w C ->
  Forall (fun dp => Forall valid_cp (fst dp) /\ Forall valid_cp (snd dp)) l ->
  exists C', store_holds (fold_left (fun w dp => snd (add_task (fst dp) (snd dp) w)) l w) C' /\
    map normalize_task C' =
    map normalize_task C ++ map normalize_task (numbered (List.length C + 1) l).
Proof.
  induction l as [|[d p] l IH]; intros w C Hh Hl.
  - exists C. split; [exact Hh | rewrite List.app_nil_r; reflexivity].
  - inversion Hl as [|? ? [Hd Hp] Hr]; subst. cbn [fold_left fst snd].
    destruct (IH _ _ (holds_add w C d p Hh Hd Hp) Hr) as [C' [H' E']].
    exists C'. split; [exact H'|]. rewrite E', map_app, map_normalize_idem.
    rewrite length_app, length_map. cbn [List.length numbered map].
    rewrite <- app_assoc. cbn [app].
    replace (Z.of_nat (List.length C) + 1)%Z with (Z.of_nat (List.length C + 1)) by lia.
    replace (List.length C + 1 + 1)%nat with (S (List.length C + 1)) by lia.
    reflexivity.
Qed.

(** X12.  Starting from a fresh server, a sequence of [add_task] calls
    stores the tasks numbered 1, 2, ... in call order, all incomplete. *)
Theorem X12_adds_number_from_one (l : list (pystr * pystr)) :
  Forall (fun dp => Forall valid_cp (fst dp) /\ Forall valid_cp (snd dp)) l ->
  fst (read_tasks (fold_left (fun w dp => snd (add_task (fst dp) (snd dp) w)) l empty_world)) =
  Ok (collection_json (map normalize_task (numbered 1 l))).
Proof.
  intros Hl.
  assert (H0 : store_holds empty_world []) by (split; [constructor | right; split; reflexivity]).
  destruct (adds_hold l empty_world [] H0 Hl) as [C' [H' E']].
  rewrite (holds_read _ C' H'), E'. reflexivity.
Qed.

Lemma X12_witness :
  Forall (fun dp => Forall valid_cp (fst dp) /\ Forall valid_cp (snd dp))
    [(ps "a", ps "high"); (ps "b", ps "low")] /\
  fst (read_tasks (fold_left (fun w dp => snd (add_task (fst dp) (snd dp) w))
                     [(ps "a", ps "high"); (ps "b", ps "low")] empty_world)) =
  Ok (collection_json [mkTask 1 (ps "a") (ps "high") false; mkTask 2 (ps "b") (ps "low") false]).
Proof.
  assert (V : Forall (fun dp => Forall valid_cp (fst dp) /\ Forall valid_cp (snd dp))
                [(ps "a", ps "high"); (ps "b", ps "low")]).
  { repeat constructor; cbv; discriminate. }
  split; [exact V|].
  rewrite (X12_adds_number_from_one [(ps "a", ps "high"); (ps "b", ps "low")] V).
  vm_compute. reflexivity.
Defined.

(** ** The networked variant, over any MCP server *)
Section NetFacts.
Context {St : Type}.
Variable call : pystr -> dict pystr -> St -> res (list Net.content_item) * St.

Lemma net_read_eq (s s1 : St) (r : res (list Net.content_item)) :
  call (ps "read_file") [(ps "path", NetManager.tasks_path)] s = (r, s1) ->
  NetManager.read_tasks call s = (Net.read_tasks r, s1).
Proof. intros H. unfold NetManager.read_tasks. rewrite H. reflexivity. Qed.

Lemma net_add_json (s s1 : St) (r : res (list Net.content_item)) (l : list json) (d p : pystr) :
  call (ps "read_file") [(ps "path", NetManager.tasks_path)] s = (r, s1) ->
  Net.read_tasks r = JArr l ->
  NetManager.add_task call true d p s =
  let (r2, s2) := call (ps "write_file")
    [(ps "path", NetManager.tasks_path);
     (ps "content", dumps (JArr (l ++ [new_task (Z.of_nat (List.length l) + 1) d p])))] s1 in
  (match r2 with Ok _ => Ok (NetManager.Done (Added d p)) | Raise e => Raise e end, s2).
Proof.
  intros H E. unfold NetManager.add_task. cbn [negb].
  rewrite (net_read_eq s s1 r H), E. cbn [py_len py_append].
  unfold NetManager.write_tasks.
  destruct (call (ps "write_file") _ s1) as [[x|e] s2]; reflexivity.
Qed.

Lemma net_complete_loop (n : Z) (S : list task) : forall (P : list task) (s : St),
  NetManager.complete_loop call n (JArr (map task_json (P ++ S))) (List.length P)
    (map task_json S) s =
  match mark_first n S with
  | None => (Ok (NetManager.Done (NotFound n)), s)
  | Some S' =>
      let (r2, s2) := call (ps "write_file")
        [(ps "path", NetManager.tasks_path);
         (ps "content", dumps (collection_json (P ++ S')))] s in
      (match r2 with Ok _ => Ok (NetManager.Done (Completed n)) | Raise e => Raise e end, s2)
  end.
Proof.
  induction S as [|t S IH]; intros P s; [reflexivity|].
  cbn [map NetManager.complete_loop mark_first]. cbn [getitem task_json dict_get].
  change (pystr_eqb (ps "id") (ps "id")) with true. cbv iota beta.
  cbn [eq_int]. destruct (id t =? n) eqn:E.
  - change (setitem (task_json t) (ps "completed") (JBool true)) with (Ok (task_json (mark t))).
    cbv iota beta. unfold replace_at. rewrite map_app. cbn [map].
    rewrite <- (length_map task_json P), replace_nth_app.
    unfold NetManager.write_tasks, collection_json. rewrite map_app. cbn [map].
    destruct (call (ps "write_file") _ s) as [[x|e] s2]; reflexivity.
  - specialize (IH (P ++ [t]) s). rewrite <- app_assoc in IH. cbn [app] in IH.
    rewrite length_app in IH. cbn [List.length] in IH. rewrite Nat.add_1_r in IH.
    rewrite IH. destruct (mark_first n S); [|reflexivity].
    rewrite <- app_assoc. reflexivity.
Qed.

(** X13.  In the networked variant, when the read loads a list, a connected
    [add_task] makes one [write_file] call to /tmp/tasks.json with the list
    and the new task appended, whose id is the list length plus one; an
    exception of that call propagates. *)
Theorem X13_net_add_appends (s s1 : St) (r : res (list Net.content_item)) (l : list json)
  (d p : pystr) :
  call (ps "read_file") [(ps "path", NetManager.tasks_path)] s = (r, s1) ->
  Net.read_tasks r = JArr l ->
  NetManager.add_task call true d p s =
  let (r2, s2) := call (ps "write_file")
    [(ps "path", NetManager.tasks_path);
     (ps "content", dumps (JArr (l ++ [new_task (Z.of_nat (List.length l) + 1) d p])))] s1 in
  (match r2 with Ok _ => Ok (NetManager.Done (Added d p)) | Raise e => Raise e end, s2).
Proof. exact (net_add_json s s1 r l d p). Qed.

(** X14.  In the networked variant, when the read call raises, a connected
    [add_task] overwrites /tmp/tasks.json with a list holding only the new
    task, with id 1, whatever the file held. *)
Theorem X14_net_add_after_failed_read (s s1 : St) (e : exn) (d p : pystr) :
  call (ps "read_file") [(ps "path", NetManager.tasks_path)] s = (Raise e, s1) ->
  NetManager.add_task call true d p s =
  let (r2, s2) := call (ps "write_file")
    [(ps "path", NetManager.tasks_path); (ps "content", dumps (JArr [new_task 1 d p]))] s1 in
  (match r2 with Ok _ => Ok (NetManager.Done (Added d p)) | Raise e => Raise e end, s2).
Proof. intros H. exact (net_add_json s s1 _ [] d p H eq_refl). Qed.

(** X15.  In the networked variant, when the read loads a collection,
    a connected [complete_task] makes no write if no task has the id, and
    otherwise one write of the collection with the first such task marked
    complete. *)
Theorem X15_net_complete (s s1 : St) (r : res (list Net.content_item)) (C : list task) (n : Z) :
  call (ps "read_file") [(ps "path", NetManager.tasks_path)] s = (r, s1) ->
  Net.read_tasks r = collection_json C ->
  NetManager.complete_task call true n s =
  match mark_first n C with
  | None => (Ok (NetManager.Done (NotFound n)), s1)
  | Some C' =>
      let (r2, s2) := call (ps "write_file")
        [(ps "path", NetManager.tasks_path); (ps "content", dumps (collection_json C'))] s1 in
      (match r2 with Ok _ => Ok (NetManager.Done (Completed n)) | Raise e => Raise e end, s2)
  end.
Proof.
  intros H E. unfold NetManager.complete_task. cbn [negb].
  rewrite (net_read_eq s s1 r H), E. unfold collection_json at 1. cbn [py_iter].
  exact (net_complete_loop n C [] s1).
Qed.

(** X16.  In the networked variant, when the read loads a collection,
    a connected [list_tasks] gives the same rows as the simulated variant
    and makes no further call. *)
Theorem X16_net_list_rows (s s1 : St) (r : res (list Net.content_item)) (C : list task) :
  call (ps "read_file") [(ps "path", NetManager.tasks_path)] s = (r, s1) ->
  Net.read_tasks r = collection_json C ->
  NetManager.list_tasks call true s =
  (Ok (NetManager.Done (match C with [] => NoTasks | _ :: _ => Listed (map Expected.row_of C) end)), s1).
Proof.
  intros H E. unfold NetManager.list_tasks. cbn [negb].
  rewrite (net_read_eq s s1 r H), E. destruct C as [|t C']; [reflexivity|].
  unfold collection_json. change (negb (truthy (JArr (map task_json (t :: C'))))) with false.
  cbv iota. cbn [py_iter rbind]. rewrite render_all_tasks. reflexivity.
Qed.

End NetFacts.

(** X17.  Loading a dumped string gives it back, with each high surrogate
    directly followed by a low one joined into one code point. *)
Theorem X17_loads_dumps_str (s : pystr) :
  Forall valid_cp s -> loads (dumps (JStr s)) = Some (JStr (join_pairs s)).
Proof.
  intros Hv. unfold loads, dumps. cbn [encode]. unfold encode_basestring_ascii.
  change (34 =? 65279) with false. cbv iota.
  rewrite (skip_ws_stop 34) by reflexivity.
  rewrite (scan_once_str _ s []) by exact Hv. reflexivity.
Qed.

(** X18.  After [delete_task n], [list_tasks] succeeds and shows no row
    with id [n]. *)
Theorem X18_delete_then_list (w : world) (C : list task) (n : Z) :
  store_holds w C ->
  exists r, fst (list_tasks (snd (delete_task n w))) = Ok r /\
    (r = NoTasks \/ exists rows, r = Listed rows /\ Forall (fun x => row_id x <> JInt n) rows).
Proof.
  intros Hh. pose proof Hh as [Hv _].
  assert (Vn : Forall task_valid (map normalize_task C)).
  { apply Forall_map. eapply Forall_impl; [apply normalize_task_valid | exact Hv]. }
  rewrite (delete_task_collection w _ n (holds_read w C Hh)). cbn [snd].
  set (F := filter (keeps_id n) (map normalize_task C)).
  assert (H1 : store_holds (snd (write_tasks (collection_json F) (after_read w))) F)
    by (apply holds_written, Forall_filter_keep, Vn).
  pose proof (holds_read _ F H1) as R1. unfold F in R1.
  rewrite (normalized_filter (keeps_id n) _ (map_normalize_idem C)) in R1. fold F in R1.
  rewrite (list_collection _ F R1). cbn [fst].
  assert (HF : Forall (fun t => id t <> n) F).
  { apply Forall_forall. intros t Ht. unfold F in Ht. apply filter_In in Ht as [_ Ht].
    unfold keeps_id in Ht. apply Bool.negb_true_iff, Z.eqb_neq in Ht. exact Ht. }
  destruct F as [|t F'] eqn:EF; eexists; (split; [reflexivity|]); [left; reflexivity|].
  right. eexists; split; [reflexivity|]. rewrite <- EF in HF |- *.
  apply Forall_map. eapply Forall_impl; [|exact HF]. intros x Hx E.
  unfold Expected.row_of in E. cbn in E. injection E as E. exact (Hx E).
Qed.

(** X19.  After [add_task], [list_tasks] shows the previous rows followed
    by the new task: incomplete, with id one more than the previous count,
    its priority marker and its description. *)
Theorem X19_add_then_list (w : world) (C : list task) (d p : pystr) :
  store_holds w C -> Forall valid_cp d -> Forall valid_cp p ->
  fst (list_tasks (snd (add_task d p w))) =
  Ok (Listed (map Expected.row_of (map normalize_task C) ++
              [Expected.row_of (mkTask (Z.of_nat (List.length C) + 1)
                                    (join_pairs d) (join_pairs p) false)])).
Proof.
  intros Hh Hd Hp. pose proof (holds_read _ _ (holds_add w C d p Hh Hd Hp)) as R.
  rewrite map_app, map_normalize_idem in R. cbn [map] in R.
  rewrite (list_collection _ _ R). cbn [fst].
  destruct (map normalize_task C) as [|t C']; [reflexivity|].
  cbn [app map]. rewrite map_app. reflexivity.
Qed.

Lemma X1_witness :
  dict_get [(ps "path", ps "a.txt"); (ps "content", ps "hi")] (ps "path") = Some (ps "a.txt") /\
  dict_get [(ps "path", ps "a.txt"); (ps "content", ps "hi")] (ps "content") = Some (ps "hi") /\
  fst (call_tool (ps "read_file") [(ps "path", ps "a.txt")]
         (snd (call_tool (ps "write_file")
                 [(ps "path", ps "a.txt"); (ps "content", ps "hi")] empty_world)))
  = Ok (RContent (ps "hi")).
Proof.
  assert (Hp : dict_get [(ps "path", ps "a.txt"); (ps "content", ps "hi")] (ps "path")
               = Some (ps "a.txt")) by reflexivity.
  assert (Hc : dict_get [(ps "path", ps "a.txt"); (ps "content", ps "hi")] (ps "content")
               = Some (ps "hi")) by reflexivity.
  split; [exact Hp|]. split; [exact Hc|].
  rewrite (X1_write_then_read empty_world _ _ _ (ps "a.txt") Hp Hc). reflexivity.
Defined.

Lemma X2_witness :
  dict_get [(ps "path", ps "b.txt"); (ps "content", ps "hi")] (ps "path") = Some (ps "b.txt") /\
  dict_get [(ps "path", ps "b.txt"); (ps "content", ps "hi")] (ps "content") = Some (ps "hi") /\
  fst (call_tool (ps "list_directory") []
         (snd (call_tool (ps "write_file") [(ps "path", ps "b.txt"); (ps "content", ps "hi")]
                 (mkWorld [(ps "a.txt", ps "x")] []))))
  = Ok (RFiles [ps "a.txt"; ps "b.txt"]).
Proof.
  assert (Hp : dict_get [(ps "path", ps "b.txt"); (ps "content", ps "hi")] (ps "path")
               = Some (ps "b.txt")) by reflexivity.
  assert (Hc : dict_get [(ps "path", ps "b.txt"); (ps "content", ps "hi")] (ps "content")
               = Some (ps "hi")) by reflexivity.
  split; [exact Hp|]. split; [exact Hc|].
  rewrite (X2_write_lists_path_once _ _ [] _ _ Hp Hc). reflexivity.
Defined.

Lemma X3_witness :
  ps "read_file" <> ps "write_file" /\
  filesystem (snd (call_tool (ps "read_file") [(ps "path", ps "a.txt")]
                     (mkWorld [(ps "a.txt", ps "x")] []))) = [(ps "a.txt", ps "x")].
Proof.
  assert (H : ps "read_file" <> ps "write_file") by discriminate.
  split; [exact H|]. exact (X3_only_write_changes_files (mkWorld [(ps "a.txt", ps "x")] []) _ _ H).
Defined.

Lemma X5_witness :
  In (ps "list_directory") (map fst Server.list_tools) /\
  fst (call_tool (ps "list_directory") [] empty_world) <> Ok (RError (ps "x")).
Proof.
  assert (H : In (ps "list_directory") (map fst Server.list_tools)) by (right; right; left; reflexivity).
  split; [exact H|]. exact (X5_listed_tools_handled _ [] empty_world (ps "x") H).
Defined.

Lemma X6_witness :
  fst (read_tasks (mkWorld [(tasks_file, dumps (collection_json
         [mkTask 1 (ps "a") (ps "high") false]))] []))
    = Ok (collection_json [mkTask 1 (ps "a") (ps "high") false]) /\
  fst (list_tasks (mkWorld [(tasks_file, dumps (collection_json
         [mkTask 1 (ps "a") (ps "high") false]))] []))
    = Ok (Listed [mkRow false (JInt 1) Red (JStr (ps "a"))]).
Proof.
  assert (H : fst (read_tasks (mkWorld [(tasks_file, dumps (collection_json
         [mkTask 1 (ps "a") (ps "high") false]))] []))
    = Ok (collection_json [mkTask 1 (ps "a") (ps "high") false])) by (vm_compute; reflexivity).
  split; [exact H|]. rewrite (X6_list_rows _ _ H). reflexivity.
Defined.

Lemma X7_witness :
  fst (read_tasks (mkWorld [(tasks_file, ps "{}")] [])) = Ok (JObj []) /\
  (forall l, JObj [] <> JArr l) /\
  fst (add_task (ps "a") (ps "low") (mkWorld [(tasks_file, ps "{}")] [])) = Raise AttributeError.
Proof.
  assert (H : fst (read_tasks (mkWorld [(tasks_file, ps "{}")] [])) = Ok (JObj []))
    by (vm_compute; reflexivity).
  assert (Hl : forall l, JObj [] <> JArr l) by discriminate.
  split; [exact H|]. split; [exact Hl|].
  rewrite (X7_add_non_list _ _ (ps "a") (ps "low") H Hl). reflexivity.
Defined.

Lemma X8_witness :
  fst (read_tasks (mkWorld [(tasks_file, ps "{}")] [])) = Ok (JObj []) /\
  (forall l, JObj [] <> JArr l) /\
  stored (snd (delete_task 1 (mkWorld [(tasks_file, ps "{}")] []))) = Some (ps "[]").
Proof.
  assert (H : fst (read_tasks (mkWorld [(tasks_file, ps "{}")] [])) = Ok (JObj []))
    by (vm_compute; reflexivity).
  assert (Hl : forall l, JObj [] <> JArr l) by discriminate.
  split; [exact H|]. split; [exact Hl|].
  rewrite (X8_delete_non_list _ _ 1 H Hl). reflexivity.
Defined.

Lemma X9_witness :
  fst (read_tasks (mkWorld [(tasks_file, ps "7")] [])) = Ok (JInt 7) /\
  (forall l, JInt 7 <> JArr l) /\
  complete_task 1 (mkWorld [(tasks_file, ps "7")] [])
    = (Raise TypeError, after_read (mkWorld [(tasks_file, ps "7")] [])).
Proof.
  assert (H : fst (read_tasks (mkWorld [(tasks_file, ps "7")] [])) = Ok (JInt 7))
    by (vm_compute; reflexivity).
  assert (Hl : forall l, JInt 7 <> JArr l) by discriminate.
  split; [exact H|]. split; [exact Hl|].
  exact (X9_complete_non_list _ _ 1 H Hl).
Defined.

Lemma X10_witness :
  store_holds (mkWorld [(tasks_file, dumps (collection_json
                 [mkTask 1 (ps "a") (ps "low") false]))] [])
              [mkTask 1 (ps "a") (ps "low") false] /\
  filesystem (snd (complete_task 1 (snd (complete_task 1
    (mkWorld [(tasks_file, dumps (collection_json [mkTask 1 (ps "a") (ps "low") false]))] [])))))
  = filesystem (snd (complete_task 1
    (mkWorld [(tasks_file, dumps (collection_json [mkTask 1 (ps "a") (ps "low") false]))] []))).
Proof.
  assert (H : store_holds (mkWorld [(tasks_file, dumps (collection_json
                 [mkTask 1 (ps "a") (ps "low") false]))] [])
              [mkTask 1 (ps "a") (ps "low") false]).
  { split; [repeat constructor; cbv; discriminate | left; reflexivity]. }
  split; [exact H|]. exact (X10_complete_twice _ _ 1 H).
Defined.

Lemma X11_witness :
  store_holds (mkWorld [(tasks_file, dumps (collection_json
                 [mkTask 1 (ps "a") (ps "low") false]))] [])
              [mkTask 1 (ps "a") (ps "low") false] /\
  filesystem (snd (delete_task 1 (snd (delete_task 1
    (mkWorld [(tasks_file, dumps (collection_json [mkTask 1 (ps "a") (ps "low") false]))] [])))))
  = filesystem (snd (delete_task 1
    (mkWorld [(tasks_file, dumps (collection_json [mkTask 1 (ps "a") (ps "low") false]))] []))).
Proof.
  assert (H : store_holds (mkWorld [(tasks_file, dumps (collection_json
                 [mkTask 1 (ps "a") (ps "low") false]))] [])
              [mkTask 1 (ps "a") (ps "low") false]).
  { split; [repeat constructor; cbv; discriminate | left; reflexivity]. }
  split; [exact H|]. exact (X11_delete_twice _ _ 1 H).
Defined.

Lemma X13_witness :
  let call := fun (name : pystr) (args : dict pystr) (s : pystr) =>
    if pystr_eqb name (ps "read_file") then (Ok [Net.TextContent s], s)
    else (Ok [], match dict_get args (ps "content") with Some c => c | None => s end) in
  call (ps "read_file") [(ps "path", NetManager.tasks_path)] (ps "[]")
    = (Ok [Net.TextContent (ps "[]")], ps "[]") /\
  Net.read_tasks (Ok [Net.TextContent (ps "[]")]) = JArr [] /\
  NetManager.add_task call true (ps "a") (ps "low") (ps "[]")
    = (Ok (NetManager.Done (Added (ps "a") (ps "low"))),
       dumps (JArr [new_task 1 (ps "a") (ps "low")])).
Proof.
  intros call.
  assert (H1 : call (ps "read_file") [(ps "path", NetManager.tasks_path)] (ps "[]")
    = (Ok [Net.TextContent (ps "[]")], ps "[]")) by reflexivity.
  assert (H2 : Net.read_tasks (Ok [Net.TextContent (ps "[]")]) = JArr []) by (vm_compute; reflexivity).
  split; [exact H1|]. split; [exact H2|].
  rewrite (X13_net_add_appends call _ _ _ [] (ps "a") (ps "low") H1 H2). reflexivity.
Defined.

Lemma X14_witness :
  let call := fun (name : pystr) (args : dict pystr) (s : pystr) =>
    if pystr_eqb name (ps "read_file") then (Raise KeyError, s)
    else (Ok [], match dict_get args (ps "content") with Some c => c | None => s end) in
  call (ps "read_file") [(ps "path", NetManager.tasks_path)] (ps "[1, 2]")
    = (Raise KeyError, ps "[1, 2]") /\
  NetManager.add_task call true (ps "a") (ps "low") (ps "[1, 2]")
    = (Ok (NetManager.Done (Added (ps "a") (ps "low"))),
       dumps (JArr [new_task 1 (ps "a") (ps "low")])).
Proof.
  intros call.
  assert (H1 : call (ps "read_file") [(ps "path", NetManager.tasks_path)] (ps "[1, 2]")
    = (Raise KeyError, ps "[1, 2]")) by reflexivity.
  split; [exact H1|].
  rewrite (X14_net_add_after_failed_read call _ _ _ (ps "a") (ps "low") H1). reflexivity.
Defined.

Lemma X15_witness :
  let call := fun (name : pystr) (args : dict pystr) (s : pystr) =>
    if pystr_eqb name (ps "read_file") then (Ok [Net.TextContent s], s)
    else (Ok [], match dict_get args (ps "content") with Some c => c | None => s end) in
  call (ps "read_file") [(ps "path", NetManager.tasks_path)]
       (dumps (collection_json [mkTask 1 (ps "a") (ps "low") false]))
    = (Ok [Net.TextContent (dumps (collection_json [mkTask 1 (ps "a") (ps "low") false]))],
       dumps (collection_json [mkTask 1 (ps "a") (ps "low") false])) /\
  Net.read_tasks
    (Ok [Net.TextContent (dumps (collection_json [mkTask 1 (ps "a") (ps "low") false]))])
    = collection_json [mkTask 1 (ps "a") (ps "low") false] /\
  NetManager.complete_task call true 1
    (dumps (collection_json [mkTask 1 (ps "a") (ps "low") false]))
    = (Ok (NetManager.Done (Completed 1)),
       dumps (collection_json [mkTask 1 (ps "a") (ps "low") true])).
Proof.
  intros call.
  assert (H1 : call (ps "read_file") [(ps "path", NetManager.tasks_path)]
       (dumps (collection_json [mkTask 1 (ps "a") (ps "low") false]))
    = (Ok [Net.TextContent (dumps (collection_json [mkTask 1 (ps "a") (ps "low") false]))],
       dumps (collection_json [mkTask 1 (ps "a") (ps "low") false]))) by reflexivity.
  assert (H2 : Net.read_tasks
    (Ok [Net.TextContent (dumps (collection_json [mkTask 1 (ps "a") (ps "low") false]))])
    = collection_json [mkTask 1 (ps "a") (ps "low") false]) by (vm_compute; reflexivity).
  split; [exact H1|]. split; [exact H2|].
  rewrite (X15_net_complete call _ _ _ _ 1 H1 H2). reflexivity.
Defined.

Lemma X16_witness :
  let call := fun (name : pystr) (args : dict pystr) (s : pystr) =>
    if pystr_eqb name (ps "read_file") then (Ok [Net.TextContent s], s)
    else (Ok [], match dict_get args (ps "content") with Some c => c | None => s end) in
  call (ps "read_file") [(ps "path", NetManager.tasks_path)]
       (dumps (collection_json [mkTask 1 (ps "a") (ps "medium") true]))
    = (Ok [Net.TextContent (dumps (collection_json [mkTask 1 (ps "a") (ps "medium") true]))],
       dumps (collection_json [mkTask 1 (ps "a") (ps "medium") true])) /\
  Net.read_tasks
    (Ok [Net.TextContent (dumps (collection_json [mkTask 1 (ps "a") (ps "medium") true]))])
    = collection_json [mkTask 1 (ps "a") (ps "medium") true] /\
  fst (NetManager.list_tasks call true
         (dumps (collection_json [mkTask 1 (ps "a") (ps "medium") true])))
    = Ok (NetManager.Done (Listed [mkRow true (JInt 1) Yellow (JStr (ps "a"))])).
Proof.
  intros call.
  assert (H1 : call (ps "read_file") [(ps "path", NetManager.tasks_path)]
       (dumps (collection_json [mkTask 1 (ps "a") (ps "medium") true]))
    = (Ok [Net.TextContent (dumps (collection_json [mkTask 1 (ps "a") (ps "medium") true]))],
       dumps (collection_json [mkTask 1 (ps "a") (ps "medium") true]))) by reflexivity.
  assert (H2 : Net.read_tasks
    (Ok [Net.TextContent (dumps (collection_json [mkTask 1 (ps "a") (ps "medium") true]))])
    = collection_json [mkTask 1 (ps "a") (ps "medium") true]) by (vm_compute; reflexivity).
  split; [exact H1|]. split; [exact H2|].
  rewrite (X16_net_list_rows call _ _ _ _ H1 H2). reflexivity.
Defined.

Lemma X17_witness :
  Forall valid_cp [55357; 56832] /\
  loads (dumps (JStr [55357; 56832])) = Some (JStr [128512]).
Proof.
  assert (H : Forall valid_cp [55357; 56832]) by (repeat constructor; cbv; discriminate).
  split; [exact H|]. rewrite (X17_loads_dumps_str _ H). reflexivity.
Defined.

Lemma X18_witness :
  store_holds (mkWorld [(tasks_file, dumps (collection_json
                 [mkTask 1 (ps "a") (ps "low") false]))] [])
              [mkTask 1 (ps "a") (ps "low") false] /\
  exists r, fst (list_tasks (snd (delete_task 1
    (mkWorld [(tasks_file, dumps (collection_json [mkTask 1 (ps "a") (ps "low") false]))] []))))
    = Ok r /\
    (r = NoTasks \/ exists rows, r = Listed rows /\ Forall (fun x => row_id x <> JInt 1) rows).
Proof.
  assert (H : store_holds (mkWorld [(tasks_file, dumps (collection_json
                 [mkTask 1 (ps "a") (ps "low") false]))] [])
              [mkTask 1 (ps "a") (ps "low") false]).
  { split; [repeat constructor; cbv; discriminate | left; reflexivity]. }
  split; [exact H|]. exact (X18_delete_then_list _ _ 1 H).
Defined.

Lemma X19_witness :
  store_holds empty_world [] /\ Forall valid_cp (ps "a") /\ Forall valid_cp (ps "low") /\
  fst (list_tasks (snd (add_task (ps "a") (ps "low") empty_world)))
    = Ok (Listed [mkRow false (JInt 1) Green (JStr (ps "a"))]).
Proof.
  assert (H : store_holds empty_world []) by (split; [constructor | right; split; reflexivity]).
  assert (Hd : Forall valid_cp (ps "a")) by (repeat constructor; cbv; discriminate).
  assert (Hp : Forall valid_cp (ps "low")) by (repeat constructor; cbv; discriminate).
  split; [exact H|]. split; [exact Hd|]. split; [exact Hp|].
  rewrite (X19_add_then_list _ _ _ _ H Hd Hp). vm_compute. reflexivity.
Defined.

End Extras.
